(** * computeSales.py: price catalogue, sales aggregation and report

    A shallow embedding of [build_price_map], [compute_sales] and
    [format_output] of [src/computeSales.py], and the properties of the
    specification checked against it.

    Python values are those [json.load] produces.  A Python [float] is an
    IEEE-754 binary64, here Rocq's primitive [float]; a Python [int] is an
    unbounded integer, here [Z].  Exceptions and the text written by [print]
    are explicit: a computation takes the lines printed so far and returns
    its outcome together with the lines printed up to there. *)

From Stdlib Require Import ZArith Floats String Ascii List Bool Lia DecimalString.
From stdpp Require Import gmap strings.
Import ListNotations.

Set Warnings "-register-all".
Local Open Scope string_scope.
Local Open Scope list_scope.
Local Open Scope Z_scope.

(** ** Values *)

(** What [json.load] returns: [None], [bool], [int], [float], [str], [list]
    and [dict] with string keys (an object is the list of its items). *)
Inductive pyval : Type :=
| PNone
| PBool (b : bool)
| PInt (z : Z)
| PFloat (f : float)
| PStr (s : string)
| PList (l : list pyval)
| PDict (d : list (string * pyval)).

(** The values for which [isinstance(v, (int, float))] holds; [bool] is a
    subclass of [int]. *)
Inductive number : Type :=
| NBool (b : bool)
| NInt (z : Z)
| NFloat (f : float).

Definition as_number (v : pyval) : option number :=
  match v with
  | PBool b => Some (NBool b)
  | PInt z => Some (NInt z)
  | PFloat f => Some (NFloat f)
  | _ => None
  end.

Definition of_number (n : number) : pyval :=
  match n with
  | NBool b => PBool b
  | NInt z => PInt z
  | NFloat f => PFloat f
  end.

Definition is_None (v : pyval) : bool :=
  match v with PNone => true | _ => false end.

(** ** Exceptions and printed output *)

Inductive exn : Type :=
| TypeError
| AttributeError
| KeyError
| OverflowError.

Inductive outcome (A : Type) : Type :=
| Ok (a : A)
| Raise (e : exn).
Arguments Ok {A} a.
Arguments Raise {A} e.

#[global] Instance exn_eq_dec : EqDecision exn.
Proof. solve_decision. Defined.

#[global] Instance outcome_eq_dec {A} `{EqDecision A} : EqDecision (outcome A).
Proof. solve_decision. Defined.

(** A computation that may print and may raise. *)
Definition M (A : Type) : Type := list string -> outcome A * list string.

Definition ret {A} (a : A) : M A := fun out => (Ok a, out).

Definition bind {A B} (m : M A) (k : A -> M B) : M B :=
  fun out =>
    match m out with
    | (Ok a, out') => k a out'
    | (Raise e, out') => (Raise e, out')
    end.

Definition raise {A} (e : exn) : M A := fun out => (Raise e, out).

Definition print (line : string) : M unit := fun out => (Ok tt, out ++ [line]).

Definition lift {A} (o : outcome A) : M A := fun out => (o, out).

Notation "x <- m ;; k" := (bind m (fun x => k))
  (at level 100, m at next level, right associativity).
Notation "m ;;; k" := (bind m (fun _ => k))
  (at level 100, right associativity).

(** A [for] loop whose body updates the loop-carried variables [s]; an
    exception in the body leaves the loop. *)
Fixpoint for_each {A S} (body : A -> S -> M S) (l : list A) (s : S) : M S :=
  match l with
  | [] => ret s
  | x :: l' => s' <- body x s ;; for_each body l' s'
  end.

(** ** Numbers *)

(** The integer a [bool] or [int] stands for. *)
Definition int_value (n : number) : option Z :=
  match n with
  | NBool b => Some (Z.b2z b)
  | NInt z => Some z
  | NFloat _ => None
  end.

(** Integers of magnitude [2^1024 - 2^970] and above round (to nearest,
    ties to even) to [2^1024], which is not a binary64. *)
Definition float_limit : Z := 2 ^ 1024 - 2 ^ 970.

(** [int] to [float], as the arithmetic operators convert a mixed operand:
    correctly rounded, [OverflowError] when out of range. *)
Definition float_of_int (z : Z) : outcome float :=
  if float_limit <=? Z.abs z then Raise OverflowError
  else Ok (SF2Prim (binary_normalize prec emax z 0 false)).

Definition to_float (n : number) : outcome float :=
  match n with
  | NFloat f => Ok f
  | NBool b => float_of_int (Z.b2z b)
  | NInt z => float_of_int z
  end.

(** [a * b] on numbers: exact on integers, binary64 as soon as one operand
    is a [float]. *)
Definition py_mul (a b : number) : outcome number :=
  match int_value a, int_value b with
  | Some x, Some y => Ok (NInt (x * y))
  | _, _ =>
      match to_float a with
      | Raise e => Raise e
      | Ok x =>
          match to_float b with
          | Raise e => Raise e
          | Ok y => Ok (NFloat (x * y)%float)
          end
      end
  end.

(** [t += x] for a [float] [t]. *)
Definition py_iadd (t : float) (x : number) : outcome float :=
  match to_float x with
  | Raise e => Raise e
  | Ok y => Ok (t + y)%float
  end.

(** [n < 0] and [n <= 0]. *)
Definition lt_zero (n : number) : bool :=
  match n with
  | NBool _ => false
  | NInt z => z <? 0
  | NFloat f => (f <? 0)%float
  end.

Definition le_zero (n : number) : bool :=
  match n with
  | NBool b => negb b
  | NInt z => z <=? 0
  | NFloat f => (f <=? 0)%float
  end.

(** [0 < n], the reading of "a number greater than zero". *)
Definition gt_zero (n : number) : bool :=
  match n with
  | NBool b => b
  | NInt z => 0 <? z
  | NFloat f => (0 <? f)%float
  end.

(** ** Dictionary keys *)

(** A hashable value up to Python's [==], which is what a [dict] uses to
    find a key: [True == 1 == 1.0], [0 == 0.0 == -0.0], and an [int] and a
    [float] are equal when they denote the same real number.  [KFrac m e]
    is the non-integral binary64 [m * 2^e], with [m] odd and [e < 0].
    [json.load] yields one shared object for every [NaN], which a [dict]
    finds by identity. *)
Inductive hkey : Type :=
| KNone
| KInt (z : Z)
| KFrac (m : Z) (e : Z)
| KInf (negative : bool)
| KNaN
| KStr (s : string).

#[global] Instance hkey_eq_dec : EqDecision hkey.
Proof. solve_decision. Defined.

#[global] Instance hkey_countable : Countable hkey.
Proof.
  refine (inj_countable'
    (fun k => match k with
              | KNone => inl (inl tt)
              | KNaN => inl (inr tt)
              | KInt z => inr (inl (inl z))
              | KFrac m e => inr (inl (inr (m, e)))
              | KInf s => inr (inr (inl s))
              | KStr s => inr (inr (inr s))
              end)
    (fun c => match c with
              | inl (inl _) => KNone
              | inl (inr _) => KNaN
              | inr (inl (inl z)) => KInt z
              | inr (inl (inr (m, e))) => KFrac m e
              | inr (inr (inl s)) => KInf s
              | inr (inr (inr s)) => KStr s
              end) _).
  intros []; reflexivity.
Defined.

(** Halve an even mantissa while the exponent is negative. *)
Fixpoint reduce_fraction (m : positive) (e : Z) : positive * Z :=
  match m with
  | xO m' => if e <? 0 then reduce_fraction m' (e + 1) else (m, e)
  | _ => (m, e)
  end.

Definition signed (negative : bool) (z : Z) : Z :=
  if negative then - z else z.

Definition float_key (f : float) : hkey :=
  match Prim2SF f with
  | S754_zero _ => KInt 0
  | S754_infinity s => KInf s
  | S754_nan => KNaN
  | S754_finite s m e =>
      let '(m', e') := reduce_fraction m e in
      if 0 <=? e' then KInt (signed s (Z.pos m' * 2 ^ e'))
      else KFrac (signed s (Z.pos m')) e'
  end.

(** [hash(v)]: lists and dicts are unhashable. *)
Definition key_of (v : pyval) : outcome hkey :=
  match v with
  | PNone => Ok KNone
  | PBool b => Ok (KInt (Z.b2z b))
  | PInt z => Ok (KInt z)
  | PFloat f => Ok (float_key f)
  | PStr s => Ok (KStr s)
  | PList _ | PDict _ => Raise TypeError
  end.

(** The price map: a [dict] from titles to the prices that passed the
    [isinstance] test. *)
Abbreviation PriceMap := (gmap hkey number).

(** [d[k] = v] *)
Definition dict_setitem (d : PriceMap) (k : pyval) (v : number) : outcome PriceMap :=
  match key_of k with
  | Ok h => Ok (<[h := v]> d)
  | Raise e => Raise e
  end.

(** [k in d] *)
Definition dict_contains (d : PriceMap) (k : pyval) : outcome bool :=
  match key_of k with
  | Ok h => Ok (bool_decide (is_Some (d !! h)))
  | Raise e => Raise e
  end.

(** [d[k]] *)
Definition dict_getitem (d : PriceMap) (k : pyval) : outcome number :=
  match key_of k with
  | Ok h => match d !! h with Some v => Ok v | None => Raise KeyError end
  | Raise e => Raise e
  end.

(** ** Records *)

Fixpoint assoc (d : list (string * pyval)) (k : string) : option pyval :=
  match d with
  | [] => None
  | (k', v) :: d' => if String.eqb k' k then Some v else assoc d' k
  end.

(** [v.get(k, default)]: only a [dict] has the method. *)
Definition py_get (v : pyval) (k : string) (default : pyval) : outcome pyval :=
  match v with
  | PDict d => Ok (match assoc d k with Some x => x | None => default end)
  | _ => Raise AttributeError
  end.

Fixpoint chars (s : string) : list pyval :=
  match s with
  | EmptyString => []
  | String c s' => PStr (String c EmptyString) :: chars s'
  end.

(** The elements a [for] loop visits: those of a list, the characters of a
    string, the keys of a dict; nothing else from JSON is iterable. *)
Definition py_iter (v : pyval) : outcome (list pyval) :=
  match v with
  | PList l => Ok l
  | PStr s => Ok (chars s)
  | PDict d => Ok (map (fun kv => PStr (fst kv)) d)
  | _ => Raise TypeError
  end.

(** ** Text *)

Definition newline : string := String (ascii_of_nat 10) EmptyString.

(** [s * n] *)
Fixpoint str_repeat (s : string) (n : nat) : string :=
  match n with
  | O => ""
  | S n' => s +:+ str_repeat s n'
  end.

(** [sep.join(lines)] *)
Fixpoint join (sep : string) (lines : list string) : string :=
  match lines with
  | [] => ""
  | [x] => x
  | x :: rest => x +:+ sep +:+ join sep rest
  end.

Definition digit_char (d : Z) : ascii := ascii_of_nat (48 + Z.to_nat d).

Definition is_digit (c : ascii) : bool :=
  let n := nat_of_ascii c in (48 <=? n)%nat && (n <=? 57)%nat.

(** The decimal numeral of a natural number. *)
Definition decimal (n : Z) : string :=
  DecimalString.NilZero.string_of_uint (N.to_uint (Z.to_N n)).

(** The [p] low decimal digits of [n], most significant first. *)
Fixpoint low_digits (p : nat) (n : Z) : string :=
  match p with
  | O => ""
  | S p' => low_digits p' (n / 10) +:+ String (digit_char (n mod 10)) ""
  end.

(** A comma after every third digit, on the digits least significant
    first. *)
Fixpoint group_thousands (l : list ascii) : list ascii :=
  match l with
  | a :: b :: c :: (_ :: _) as rest => a :: b :: c :: ","%char :: group_thousands rest
  | _ => l
  end.

Definition thousands (s : string) : string :=
  string_of_list_ascii (rev (group_thousands (rev (list_ascii_of_string s)))).

(** [num / den] rounded to the nearest integer, ties to even ([den > 0]). *)
Definition round_half_even (num den : Z) : Z :=
  let q := num / den in
  let r := num mod den in
  if 2 * r <? den then q
  else if den <? 2 * r then q + 1
  else if Z.even q then q else q + 1.

(** [m * 2^e * 10^p] rounded to an integer. *)
Definition scaled (m : positive) (e : Z) (p : nat) : Z :=
  if 0 <=? e then Z.pos m * 2 ^ e * 10 ^ Z.of_nat p
  else round_half_even (Z.pos m * 10 ^ Z.of_nat p) (2 ^ (- e)).

(** The numeral of [n / 10^p] with [p] digits after the point. *)
Definition fixed_point (comma : bool) (p : nat) (n : Z) : string :=
  let whole := decimal (n / 10 ^ Z.of_nat p) in
  (if comma then thousands whole else whole)
  +:+ match p with O => "" | S _ => "." +:+ low_digits p n end.

Definition sign_text (negative : bool) : string :=
  if negative then "-" else "".

(** [format(x, ",.<p>f")] when [comma], [format(x, ".<p>f")] otherwise:
    the exact value rounded to [p] decimals, ties to even. *)
Definition format_f (comma : bool) (p : nat) (x : float) : string :=
  match Prim2SF x with
  | S754_nan => "nan"
  | S754_infinity s => sign_text s +:+ "inf"
  | S754_zero s => sign_text s +:+ fixed_point comma p 0
  | S754_finite s m e => sign_text s +:+ fixed_point comma p (scaled m e p)
  end.

(** ** The program *)

(** One entry of [results]: the dict with keys [sale_id], [customer] and
    [total] that [compute_sales] appends. *)
Record SaleResult : Type := {
  sale_id : pyval;
  customer : pyval;
  total : float
}.

Section Program.

(** [str(v)], as an f-string renders [{v}]. *)
Variable str : pyval -> string.

(** The body of the loop of [build_price_map]. *)
Definition catalogue_entry (item : pyval) (price_map : PriceMap) : M PriceMap :=
  title <- lift (py_get item "title" PNone) ;;
  price <- lift (py_get item "price" PNone) ;;
  if is_None title || is_None price then
    print ("WARNING: Skipping invalid catalogue entry: " +:+ str item) ;;;
    ret price_map
  else
    let invalid :=
      print ("WARNING: Invalid price for '" +:+ str title +:+ "': "
             +:+ str price +:+ ". Skipping.") ;;;
      ret price_map in
    match as_number price with
    | None => invalid
    | Some n =>
        if lt_zero n then invalid
        else lift (dict_setitem price_map title n)
    end.

Definition build_price_map (catalogue : list pyval) : M PriceMap :=
  for_each catalogue_entry catalogue ∅.

(** The body of the inner loop of [compute_sales]. *)
Definition sale_item (price_map : PriceMap) (sale_id : pyval)
    (item : pyval) (sale_total : float) : M float :=
  product <- lift (py_get item "Product" PNone) ;;
  quantity <- lift (py_get item "Quantity" (PInt 0)) ;;
  known <- lift (dict_contains price_map product) ;;
  if negb known then
    print ("ERROR: Product '" +:+ str product +:+ "' not found in catalogue "
           +:+ "(Sale: " +:+ str sale_id +:+ "). Skipping.") ;;;
    ret sale_total
  else
    let invalid :=
      print ("WARNING: Invalid quantity for '" +:+ str product +:+ "' "
             +:+ "(Sale: " +:+ str sale_id +:+ "): " +:+ str quantity
             +:+ ". Skipping.") ;;;
      ret sale_total in
    match as_number quantity with
    | None => invalid
    | Some q =>
        if le_zero q then invalid
        else
          price <- lift (dict_getitem price_map product) ;;
          amount <- lift (py_mul price q) ;;
          lift (py_iadd sale_total amount)
    end.

(** The body of the outer loop of [compute_sales], on the pair
    [(results, grand_total)]. *)
Definition sale_record (price_map : PriceMap) (sale : pyval)
    (acc : list SaleResult * float) : M (list SaleResult * float) :=
  let '(results, grand_total) := acc in
  sale_id <- lift (py_get sale "SALE_ID" (PStr "UNKNOWN")) ;;
  customer <- lift (py_get sale "Customer" (PStr "UNKNOWN")) ;;
  items <- lift (py_get sale "Items" (PList [])) ;;
  items <- lift (py_iter items) ;;
  sale_total <- for_each (sale_item price_map sale_id) items 0%float ;;
  let grand_total := (grand_total + sale_total)%float in
  ret (results ++ [{| sale_id := sale_id; customer := customer;
                      total := sale_total |}],
       grand_total).

Definition compute_sales (sales : list pyval) (price_map : PriceMap)
    : M (list SaleResult * float) :=
  for_each (sale_record price_map) sales ([], 0%float).

(** The four lines [format_output] appends for one result. *)
Definition result_lines (lines : list string) (result : SaleResult) : list string :=
  let lines := lines ++ ["Sale ID  : " +:+ str (sale_id result)] in
  let lines := lines ++ ["Customer : " +:+ str (customer result)] in
  let lines := lines ++ ["Total    : $" +:+ format_f true 2 (total result)] in
  let lines := lines ++ [str_repeat "-" 50] in
  lines.

Definition format_output (results : list SaleResult)
    (grand_total elapsed_time : float) : string :=
  let lines := [] in
  let lines := lines ++ [str_repeat "=" 50] in
  let lines := lines ++ ["           SALES RESULTS REPORT"] in
  let lines := lines ++ [str_repeat "=" 50] in
  let lines := fold_left result_lines results lines in
  let lines := lines ++ ["GRAND TOTAL: $" +:+ format_f true 2 grand_total] in
  let lines := lines ++ [str_repeat "=" 50] in
  let lines := lines ++ ["Execution time: " +:+ format_f false 4 elapsed_time
                         +:+ " seconds"] in
  join newline lines.

(** [main], between reading the two files and formatting the report. *)
Definition pipeline (catalogue sales : list pyval)
    : M (list SaleResult * float) :=
  price_map <- build_price_map catalogue ;;
  compute_sales sales price_map.

End Program.

(** ** Specification-side notions *)

(** The sum of the totals of the results, accumulated in binary64 from
    [0.0] in the order of the results, with no rounding to decimals. *)
Definition sum_totals (results : list SaleResult) : float :=
  fold_left (fun acc r => (acc + total r)%float) results 0%float.

(** A result stands for a sale record: it carries the record's id and
    customer, or ["UNKNOWN"] where the record has none. *)
Definition result_of_sale (sale : pyval) (r : SaleResult) : Prop :=
  py_get sale "SALE_ID" (PStr "UNKNOWN") = Ok (sale_id r) /\
  py_get sale "Customer" (PStr "UNKNOWN") = Ok (customer r).

(** The title and price of a valid catalogue entry: both fields are
    present and the price is a number that is not below zero. *)
Definition valid_entry (item : pyval) : option (pyval * number) :=
  match py_get item "title" PNone, py_get item "price" PNone with
  | Ok title, Ok price =>
      if is_None title then None
      else match as_number price with
           | Some n => if lt_zero n then None else Some (title, n)
           | None => None
           end
  | _, _ => None
  end.

(** The price the catalogue gives a key: that of the last valid entry
    whose title is that key. *)
Fixpoint last_valid_price (catalogue : list pyval) (k : hkey) : option number :=
  match catalogue with
  | [] => None
  | item :: rest =>
      match last_valid_price rest k with
      | Some n => Some n
      | None =>
          match valid_entry item with
          | Some (title, n) => if decide (key_of title = Ok k) then Some n else None
          | None => None
          end
      end
  end.

(** The reading of "every valid entry is included with its exact price"
    that takes each valid entry on its own. *)
Definition maps_every_valid_entry (catalogue : list pyval) (price_map : PriceMap) : Prop :=
  forall item title n,
    In item catalogue -> valid_entry item = Some (title, n) ->
    exists k, key_of title = Ok k /\ price_map !! k = Some n.

(** [0 <= n], the reading of "non-negative" as a comparison that holds. *)
Definition ge_zero (n : number) : bool :=
  match n with
  | NBool _ => true
  | NInt z => 0 <=? z
  | NFloat f => (0 <=? f)%float
  end.

(** The diagnostics of [compute_sales]. *)
Definition unknown_product_error (str : pyval -> string) (product sale_id : pyval) : string :=
  "ERROR: Product '" +:+ str product +:+ "' not found in catalogue (Sale: "
  +:+ str sale_id +:+ "). Skipping.".

Definition invalid_quantity_warning (str : pyval -> string)
    (product sale_id quantity : pyval) : string :=
  "WARNING: Invalid quantity for '" +:+ str product +:+ "' (Sale: "
  +:+ str sale_id +:+ "): " +:+ str quantity +:+ ". Skipping.".

(** [sale_total + price * quantity], the right-hand side of the
    accumulation, with the exception it may raise. *)
Definition accumulate (sale_total : float) (price quantity : number) : outcome float :=
  match py_mul price quantity with
  | Ok amount => py_iadd sale_total amount
  | Raise e => Raise e
  end.

(** A computation that only adds lines to the output, and whose outcome
    does not depend on the lines already there. *)
Definition appends_only {A} (m : M A) : Prop :=
  forall out, m out = (fst (m []), out ++ snd (m [])).

(** ** Shapes of input *)

Definition is_dict (v : pyval) : bool :=
  match v with PDict _ => true | _ => false end.

Definition field (d : list (string * pyval)) (k : string) (default : pyval) : pyval :=
  match assoc d k with Some x => x | None => default end.

(** Well-formed top-level input: the catalogue is a sequence of key-value
    records, and so are the sales, whose [Items], where present, are
    sequences of key-value records. *)
Definition well_formed_sale (v : pyval) : bool :=
  match v with
  | PDict d =>
      match assoc d "Items" with
      | None => true
      | Some (PList items) => forallb is_dict items
      | Some _ => false
      end
  | _ => false
  end.

Definition well_formed_input (catalogue sales : list pyval) : bool :=
  forallb is_dict catalogue && forallb well_formed_sale sales.

(** Values a [dict] accepts as keys. *)
Definition hashable (v : pyval) : bool :=
  match v with PList _ | PDict _ => false | _ => true end.

(** Integers whose products of two still convert to [float]. *)
Definition int_bound : Z := 2 ^ 511.

Definition small_int (v : pyval) : bool :=
  match v with PInt z => Z.abs z <=? int_bound | _ => true end.

Definition small_number (n : number) : bool := small_int (of_number n).

(** Plain input: well-formed, titles and products hashable, integer
    prices and quantities within [int_bound]. *)
Definition plain_entry (v : pyval) : bool :=
  match v with
  | PDict d => hashable (field d "title" PNone) && small_int (field d "price" PNone)
  | _ => false
  end.

Definition plain_item (v : pyval) : bool :=
  match v with
  | PDict d => hashable (field d "Product" PNone)
               && small_int (field d "Quantity" (PInt 0))
  | _ => false
  end.

Definition plain_sale (v : pyval) : bool :=
  match v with
  | PDict d =>
      match field d "Items" (PList []) with
      | PList items => forallb plain_item items
      | _ => false
      end
  | _ => false
  end.

(** A rendering of values for the examples: Python's [str] on [None],
    booleans, integers and strings, and on lists and dicts of these, whose
    items are written with [repr].  The [repr] of a string is the string
    between single quotes, which is Python's when the string is printable
    and has no quote and no backslash; the [repr] of a float is not
    modelled and shown as a tag. *)
Definition quoted (s : string) : string := "'" +:+ s +:+ "'".

Fixpoint show_repr (v : pyval) : string :=
  match v with
  | PNone => "None"
  | PBool true => "True"
  | PBool false => "False"
  | PInt z => (if z <? 0 then "-" else "") +:+ decimal (Z.abs z)
  | PStr s => quoted s
  | PFloat _ => "<float>"
  | PList l => "[" +:+ join ", " (map show_repr l) +:+ "]"
  | PDict d =>
      "{" +:+ join ", " (map (fun kv => let '(k, x) := kv in
                                        quoted k +:+ ": " +:+ show_repr x) d)
      +:+ "}"
  end.

Definition show (v : pyval) : string :=
  match v with
  | PStr s => s
  | _ => show_repr v
  end.

Definition small_prices (price_map : PriceMap) : Prop :=
  forall k n, price_map !! k = Some n -> small_number n = true.

(** ** The report *)

Definition banner_line : string :=
  "==================================================".

Definition separator_line : string :=
  "--------------------------------------------------".

Definition title_line : string := "           SALES RESULTS REPORT".

(** The four lines of one result. *)
Definition result_block (str : pyval -> string) (r : SaleResult) : list string :=
  [ "Sale ID  : " +:+ str (sale_id r);
    "Customer : " +:+ str (customer r);
    "Total    : $" +:+ format_f true 2 (total r);
    separator_line ].

(** The lines of the report up to the execution-time line. *)
Definition report_body (str : pyval -> string) (results : list SaleResult)
    (grand_total : float) : list string :=
  [banner_line; title_line; banner_line]
  ++ flat_map (result_block str) results
  ++ ["GRAND TOTAL: $" +:+ format_f true 2 grand_total; banner_line].

Definition time_line (elapsed_time : float) : string :=
  "Execution time: " +:+ format_f false 4 elapsed_time +:+ " seconds".

(** Neither infinite nor NaN. *)
Definition finite (x : float) : bool :=
  match Prim2SF x with
  | S754_zero _ | S754_finite _ _ _ => true
  | _ => false
  end.

Definition digits (s : string) : bool :=
  forallb is_digit (list_ascii_of_string s).

(** Digits in groups of three separated by commas, read from the least
    significant end; the leading group has one to three digits. *)
Fixpoint well_grouped (l : list ascii) : bool :=
  match l with
  | [a] => is_digit a
  | [a; b] => is_digit a && is_digit b
  | [a; b; c] => is_digit a && is_digit b && is_digit c
  | a :: b :: c :: sep :: rest =>
      is_digit a && is_digit b && is_digit c && Ascii.eqb sep ","
      && well_grouped rest
  | [] => false
  end.

(** A numeral with exactly [p] decimal places, and thousands separators
    in its integer part when [comma]. *)
Definition fixed_notation (comma : bool) (p : nat) (s : string) : Prop :=
  exists sgn whole frac,
    s = sgn +:+ whole +:+ "." +:+ frac /\
    (sgn = "" \/ sgn = "-") /\
    (if comma then well_grouped (rev (list_ascii_of_string whole)) = true
     else digits whole = true /\ whole <> "") /\
    String.length frac = p /\ digits frac = true.

Fixpoint leading_spaces (s : string) : nat :=
  match s with
  | String c s' => if Ascii.eqb c " " then S (leading_spaces s') else O
  | EmptyString => O
  end.

(** A line is centred in [width] columns when the space before its text
    and the space left after it differ by at most one. *)
Definition centred (width : nat) (line : string) : bool :=
  let before := leading_spaces line in
  let after := (width - String.length line)%nat in
  ((before =? after) || (S before =? after) || (before =? S after))%nat.

(** ** Example data *)

Definition entry (title price : pyval) : pyval :=
  PDict [("title", title); ("price", price)].

Definition line_item (product quantity : pyval) : pyval :=
  PDict [("Product", product); ("Quantity", quantity)].

(** [[{"title": "Apple", "price": 2.5}]] *)
Definition apple_catalogue : list pyval :=
  [entry (PStr "Apple") (PFloat 2.5)].

(** [[{"SALE_ID": "S1", "Customer": "Bob",
       "Items": [{"Product": "Apple", "Quantity": 3}]}]] *)
Definition bob_sales : list pyval :=
  [PDict [("SALE_ID", PStr "S1"); ("Customer", PStr "Bob");
          ("Items", PList [line_item (PStr "Apple") (PInt 3)])]].

(** Apple at 2.5, a Widget excluded for its price of -5, an entry with no
    price. *)
Definition shop_catalogue : list pyval :=
  [ entry (PStr "Apple") (PFloat 2.5);
    entry (PStr "Widget") (PInt (-5));
    PDict [("title", PStr "Ghost")] ].

Definition shop_prices : PriceMap := {[ KStr "Apple" := NFloat 2.5 ]}.

(** Sale S1 buys three Apples and two Widgets; sale S2, with no customer,
    has only items that are skipped. *)
Definition shop_sales : list pyval :=
  [ PDict [("SALE_ID", PStr "S1"); ("Customer", PStr "Bob");
           ("Items", PList [ line_item (PStr "Widget") (PInt 2);
                             line_item (PStr "Apple") (PInt 3) ])];
    PDict [("SALE_ID", PStr "S2");
           ("Items", PList [ line_item (PStr "Apple") (PInt 0);
                             line_item (PStr "Apple") (PStr "many");
                             PDict [("Quantity", PInt 1)] ])] ].

Definition shop_results : list SaleResult :=
  [ {| sale_id := PStr "S1"; customer := PStr "Bob"; total := 7.5 |};
    {| sale_id := PStr "S2"; customer := PStr "UNKNOWN"; total := 0 |} ].

Definition shop_output : list string :=
  [ "ERROR: Product 'Widget' not found in catalogue (Sale: S1). Skipping.";
    "WARNING: Invalid quantity for 'Apple' (Sale: S2): 0. Skipping.";
    "WARNING: Invalid quantity for 'Apple' (Sale: S2): many. Skipping.";
    "ERROR: Product 'None' not found in catalogue (Sale: S2). Skipping." ].

(** Two valid entries of one title, at 1 and then at 2. *)
Definition twice_catalogue : list pyval :=
  [ entry (PStr "Apple") (PInt 1);
    entry (PStr "Pear") (PInt 4);
    entry (PStr "Apple") (PInt 2) ].

Definition twice_prices : PriceMap :=
  {[ KStr "Apple" := NInt 2; KStr "Pear" := NInt 4 ]}.

(** A price that is a float but not a number. *)
Definition nan_catalogue : list pyval := [entry (PStr "Void") (PFloat nan)].

(** An integer price of [10^400], which no binary64 holds. *)
Definition huge_catalogue : list pyval :=
  [entry (PStr "Gold") (PInt (10 ^ 400))].

Definition gold_sales : list pyval :=
  [PDict [("SALE_ID", PStr "S1"); ("Customer", PStr "Bob");
          ("Items", PList [line_item (PStr "Gold") (PInt 1)])]].

(** A title that is a list. *)
Definition list_title_catalogue : list pyval :=
  [entry (PList [PStr "Apple"]) (PInt 1)].

(** A product that is a list. *)
Definition list_product_sales : list pyval :=
  [PDict [("SALE_ID", PStr "S1"); ("Customer", PStr "Bob");
          ("Items", PList [line_item (PList [PStr "Apple"]) (PInt 1)])]].

(** A price of 1e308 bought ten times. *)
Definition dear_catalogue : list pyval :=
  [entry (PStr "Gold") (PFloat 1e308)].

Definition dear_sales : list pyval :=
  [PDict [("SALE_ID", PStr "S1"); ("Customer", PStr "Bob");
          ("Items", PList [line_item (PStr "Gold") (PInt 10)])]].

Definition dear_results : list SaleResult :=
  [ {| sale_id := PStr "S1"; customer := PStr "Bob"; total := infinity |} ].

(** ** Further notions *)

(** The exception [build_price_map] stops at, if any: the first entry that
    is not a dict, or that is valid but for a title no dict takes as a
    key. *)
Fixpoint first_failure (catalogue : list pyval) : option exn :=
  match catalogue with
  | [] => None
  | item :: rest =>
      if is_dict item then
        match valid_entry item with
        | Some (title, _) =>
            if hashable title then first_failure rest else Some TypeError
        | None => first_failure rest
        end
      else Some AttributeError
  end.

(** The entries [build_price_map] passes over. *)
Definition invalid_entries (catalogue : list pyval) : list pyval :=
  List.filter (fun item => match valid_entry item with Some _ => false | None => true end)
         catalogue.

Definition is_warning (line : string) : bool := String.prefix "WARNING: " line.

Definition is_error (line : string) : bool := String.prefix "ERROR: " line.

(** [x < 0] is false: [x] is zero, positive or NaN. *)
Definition not_below_zero (x : float) : bool := negb (x <? 0)%float.

(** On the IEEE view of a float: not a negative infinity and not a
    negative finite number. *)
Definition sf_not_below_zero (s : spec_float) : bool :=
  match s with
  | S754_infinity true | S754_finite true _ _ => false
  | _ => true
  end.

(** The totals of the results accumulated onto [start]. *)
Definition add_totals (start : float) (results : list SaleResult) : float :=
  fold_left (fun acc r => (acc + total r)%float) results start.

(** What an item adds under section 4.2 of the specification: the price
    and the quantity of an item whose product is a key of the price map
    and whose quantity is a number that is not [<= 0]; an item that is
    skipped adds nothing. *)
Definition item_amount (price_map : PriceMap) (item : pyval) : option (number * number) :=
  match py_get item "Product" PNone, py_get item "Quantity" (PInt 0) with
  | Ok product, Ok quantity =>
      match key_of product with
      | Ok k =>
          match price_map !! k, as_number quantity with
          | Some price, Some q => if le_zero q then None else Some (price, q)
          | _, _ => None
          end
      | Raise _ => None
      end
  | _, _ => None
  end.

(** The total of a sale under section 4.2: from [sale_total], the amounts
    of the items that count, added in the order of the items. *)
Fixpoint counted_total (price_map : PriceMap) (items : list pyval)
    (sale_total : float) : outcome float :=
  match items with
  | [] => Ok sale_total
  | item :: rest =>
      match item_amount price_map item with
      | Some (price, quantity) =>
          match accumulate sale_total price quantity with
          | Ok sale_total' => counted_total price_map rest sale_total'
          | Raise e => Raise e
          end
      | None => counted_total price_map rest sale_total
      end
  end.

(** An outcome that is a value or one of the exceptions other than
    [KeyError]. *)
Definition expected {A : Type} (o : outcome A) : Prop :=
  match o with
  | Ok _ => True
  | Raise e => e = TypeError \/ e = AttributeError \/ e = OverflowError
  end.

Fixpoint count_newlines (s : string) : nat :=
  match s with
  | EmptyString => O
  | String c s' =>
      ((if Ascii.eqb c (ascii_of_nat 10) then 1 else 0) + count_newlines s')%nat
  end.

(** A character other than the newline. *)
Definition plain_char (c : ascii) : bool := negb (Ascii.eqb c (ascii_of_nat 10)).

(** ** The command line *)

(** What [read_json] does with a path: the parsed content, or the
    exception that [open] or [json.load] raises, with its text [str(e)]
    for the two kinds that [main] catches. *)
Inductive loaded : Type :=
| Loaded (content : pyval)
| FileNotFoundError (text : string)
| JSONDecodeError (text : string)
| OtherLoadError.

(** How a run of [main] ends: by returning, by [sys.exit(code)], or with
    an exception nobody catches: one of the pipeline, or one of reading a
    file, of printing or of writing the results (an [OSError] or a
    [UnicodeError]), here [UncaughtIOError]. *)
Inductive ending : Type :=
| Returns
| SystemExit (code : Z)
| Uncaught (e : exn)
| UncaughtIOError.

(** What a run leaves behind: the arguments of the calls of [print] that
    went through, the paths given to [read_json], and the text written to
    [SalesResults.txt], if any. *)
Record world : Type := {
  stdout : list string;
  opened : list string;
  saved : option string
}.

Definition usage_line : string :=
  "Usage: python computeSales.py priceCatalogue.json salesRecord.json".

Definition saved_line : string :=
  newline +:+ "Results saved to SalesResults.txt".

Section Main.

(** [str(v)], as before. *)
Variable str : pyval -> string.

(** The file system read through [read_json]. *)
Variable read_json : string -> loaded.

(** The two readings of [time.time()]. *)
Variables start_time end_time : float.

(** Whether [print] on [sys.stdout] takes a line, and whether
    [SalesResults.txt] opens for writing and takes a text: a text that
    the stream's encoding rejects (a lone surrogate in strict UTF-8, say)
    makes [print], respectively [write], raise.  The usage line and the
    line saying the results were saved are constants in ASCII. *)
Variable printable : string -> bool.
Variable writable : string -> bool.

(** The lines that went through before the first one that [print]
    refuses, if there is one. *)
Fixpoint refused (lines : list string) : option (list string) :=
  match lines with
  | [] => None
  | line :: rest =>
      if printable line then option_map (cons line) (refused rest)
      else Some []
  end.

(** Lines 112 and 113 of [main], on whatever the two files hold: each
    function starts by iterating over its argument. *)
Definition load_and_compute (catalogue sales : pyval) : M (list SaleResult * float) :=
  entries <- lift (py_iter catalogue) ;;
  price_map <- build_price_map str entries ;;
  records <- lift (py_iter sales) ;;
  compute_sales str records price_map.

(** The [except] clauses of [main]: print the line and [sys.exit(1)]. *)
Definition exit_with (line : string) (paths : list string) : ending * world :=
  if printable line then
    (SystemExit 1, {| stdout := [line]; opened := paths; saved := None |})
  else
    (UncaughtIOError, {| stdout := []; opened := paths; saved := None |}).

(** The functions of the pipeline print as they go and nothing in them
    depends on what was printed, so that a run in which [print] raises is
    the run of the model cut at the first line refused. *)
Definition main (argv : list string) : ending * world :=
  if (length argv <? 3)%nat then
    (SystemExit 1, {| stdout := [usage_line]; opened := []; saved := None |})
  else
    let catalogue_file := nth 1 argv "" in
    let sales_file := nth 2 argv "" in
    match read_json catalogue_file with
    | FileNotFoundError e | JSONDecodeError e =>
        exit_with ("ERROR reading catalogue file: " +:+ e) [catalogue_file]
    | OtherLoadError =>
        (UncaughtIOError,
         {| stdout := []; opened := [catalogue_file]; saved := None |})
    | Loaded catalogue =>
        match read_json sales_file with
        | FileNotFoundError e | JSONDecodeError e =>
            exit_with ("ERROR reading sales file: " +:+ e)
                      [catalogue_file; sales_file]
        | OtherLoadError =>
            (UncaughtIOError,
             {| stdout := []; opened := [catalogue_file; sales_file];
                saved := None |})
        | Loaded sales =>
            let '(outcome, out) := load_and_compute catalogue sales [] in
            match refused out, outcome with
            | Some printed, _ =>
                (UncaughtIOError,
                 {| stdout := printed; opened := [catalogue_file; sales_file];
                    saved := None |})
            | None, Raise e =>
                (Uncaught e,
                 {| stdout := out; opened := [catalogue_file; sales_file];
                    saved := None |})
            | None, Ok (results, grand_total) =>
                let elapsed_time := (end_time - start_time)%float in
                let output := format_output str results grand_total elapsed_time in
                if printable output then
                  let out := out ++ [output] in
                  if writable output then
                    (Returns,
                     {| stdout := out ++ [saved_line];
                        opened := [catalogue_file; sales_file];
                        saved := Some output |})
                  else
                    (UncaughtIOError,
                     {| stdout := out; opened := [catalogue_file; sales_file];
                        saved := None |})
                else
                  (UncaughtIOError,
                   {| stdout := out; opened := [catalogue_file; sales_file];
                      saved := None |})
            end
        end
    end.

End Main.

(** A file system with the two files of the Apple scenario. *)
Definition apple_files (path : string) : loaded :=
  if String.eqb path "catalogue.json" then Loaded (PList apple_catalogue)
  else if String.eqb path "sales.json" then Loaded (PList bob_sales)
  else FileNotFoundError
         ("[Errno 2] No such file or directory: '" +:+ path +:+ "'").

(** A catalogue with no valid entry. *)
Definition widget_catalogue : list pyval :=
  [entry (PStr "Widget") (PInt (-5)); PDict [("title", PStr "Ghost")]].

(** Apple at 2.5 followed by a Pear at 4. *)
Definition pear_entries : list pyval := [entry (PStr "Pear") (PInt 4)].

Definition fruit_prices : PriceMap :=
  {[ KStr "Apple" := NFloat 2.5; KStr "Pear" := NInt 4 ]}.

Definition bob_results : list SaleResult :=
  [ {| sale_id := PStr "S1"; customer := PStr "Bob"; total := 7.5 |} ].

(** A price map with the integer price [10^400]. *)
Definition gold_prices : PriceMap := {[ KStr "Gold" := NInt (10 ^ 400) ]}.

(** The command line of the Apple scenario. *)
Definition apple_argv : list string :=
  ["computeSales.py"; "catalogue.json"; "sales.json"].

(** A file system whose catalogue file holds the number 5. *)
Definition scalar_files (path : string) : loaded :=
  if String.eqb path "catalogue.json" then Loaded (PInt 5)
  else Loaded (PList bob_sales).

(** ** Reasoning about computations *)

Lemma bind_Ok {A B} (m : M A) (k : A -> M B) out b out' :
  bind m k out = (Ok b, out') ->
  exists a out1, m out = (Ok a, out1) /\ k a out1 = (Ok b, out').
Proof.
  unfold bind. destruct (m out) as [[a|e] out1]; intros H.
  - exists a, out1. split; [reflexivity | exact H].
  - discriminate H.
Qed.

Lemma lift_Ok {A} (o : outcome A) out a out' :
  lift o out = (Ok a, out') -> o = Ok a /\ out' = out.
Proof. unfold lift. intros H. injection H as -> ->. split; reflexivity. Qed.

Lemma bind_lift_Ok {A B} (o : outcome A) (k : A -> M B) a out :
  o = Ok a -> bind (lift o) k out = k a out.
Proof. intros ->. reflexivity. Qed.

Lemma for_each_app {A S} (body : A -> S -> M S) l1 l2 s out :
  for_each body (l1 ++ l2) s out =
  match for_each body l1 s out with
  | (Ok s', out') => for_each body l2 s' out'
  | (Raise e, out') => (Raise e, out')
  end.
Proof.
  revert s out. induction l1 as [|x l1 IH]; intros s out; simpl.
  - reflexivity.
  - unfold bind. destruct (body x s out) as [[s1|e] out1]; [apply IH | reflexivity].
Qed.

(** A property of the loop-carried variables that every normal pass of the
    body preserves holds when the loop ends normally. *)
Lemma for_each_invariant {A S} (body : A -> S -> M S) (P : S -> Prop) :
  (forall x s out s' out', body x s out = (Ok s', out') -> P s -> P s') ->
  forall l s out s' out',
    for_each body l s out = (Ok s', out') -> P s -> P s'.
Proof.
  intros Hbody l. induction l as [|x l IH]; intros s out s' out' H HP; simpl in H.
  - injection H as <- _. exact HP.
  - apply bind_Ok in H as (s1 & out1 & H1 & H2).
    eapply IH; [exact H2 | eapply Hbody; eassumption].
Qed.

Section Properties.

Variable str : pyval -> string.

(** What a normal pass of the outer loop body does to [(results,
    grand_total)]. *)
Lemma sale_record_Ok price_map sale results grand_total out acc' out' :
  sale_record str price_map sale (results, grand_total) out = (Ok acc', out') ->
  exists r, result_of_sale sale r /\
            acc' = (results ++ [r], (grand_total + total r)%float).
Proof.
  unfold sale_record. intros H.
  apply bind_Ok in H as (sid & o1 & H1 & H). apply lift_Ok in H1 as [H1 ->].
  apply bind_Ok in H as (cust & o2 & H2 & H). apply lift_Ok in H2 as [H2 ->].
  apply bind_Ok in H as (items & o3 & H3 & H). apply lift_Ok in H3 as [H3 ->].
  apply bind_Ok in H as (its & o4 & H4 & H). apply lift_Ok in H4 as [H4 ->].
  apply bind_Ok in H as (tot & o5 & H5 & H).
  unfold ret in H. injection H as <- _.
  exists {| sale_id := sid; customer := cust; total := tot |}.
  split; [split; assumption | reflexivity].
Qed.

Lemma sum_totals_snoc results r :
  sum_totals (results ++ [r]) = (sum_totals results + total r)%float.
Proof. unfold sum_totals. rewrite fold_left_app. reflexivity. Qed.

(** C1: when [compute_sales] returns, the grand total is the sum of the
    totals of the returned results, accumulated in binary64 in result
    order from [0.0]; nothing is rounded. *)
Theorem grand_total_is_sum_of_totals sales price_map out results grand_total out' :
  compute_sales str sales price_map out = (Ok (results, grand_total), out') ->
  grand_total = sum_totals results.
Proof.
  unfold compute_sales. intros H.
  apply (for_each_invariant (sale_record str price_map)
           (fun acc => snd acc = sum_totals (fst acc))) in H.
  - exact H.
  - intros sale [rs g] o acc' o' Hstep Hinv. simpl in Hinv.
    apply sale_record_Ok in Hstep as (r & _ & ->). simpl.
    rewrite sum_totals_snoc, Hinv. reflexivity.
  - reflexivity.
Qed.

Lemma sale_records_Ok price_map sales : forall results grand_total out acc' out',
  for_each (sale_record str price_map) sales (results, grand_total) out
    = (Ok acc', out') ->
  exists new, fst acc' = results ++ new /\ Forall2 result_of_sale sales new.
Proof.
  induction sales as [|sale sales IH]; intros rs g out acc' out' H; simpl in H.
  - injection H as <- _. exists []. split; [symmetry; apply app_nil_r | constructor].
  - apply bind_Ok in H as (acc1 & out1 & H1 & H2).
    apply sale_record_Ok in H1 as (r & Hr & ->).
    apply IH in H2 as (new & Hnew & Hall).
    exists (r :: new). split.
    + rewrite Hnew, <- app_assoc. reflexivity.
    + constructor; assumption.
Qed.

(** C2: when [compute_sales] returns, the results are one per sale
    record and in the order of the records, each carrying its record's
    id and customer, whatever happened to the record's items. *)
Theorem one_result_per_sale_in_order sales price_map out results grand_total out' :
  compute_sales str sales price_map out = (Ok (results, grand_total), out') ->
  length results = length sales /\ Forall2 result_of_sale sales results.
Proof.
  unfold compute_sales. intros H.
  apply sale_records_Ok in H as (new & Hnew & Hall). simpl in Hnew. subst new.
  split; [symmetry; eapply Forall2_length; exact Hall | exact Hall].
Qed.

(** *** The price map *)

Lemma is_None_not_number v : is_None v = true -> as_number v = None.
Proof. destruct v; simpl; congruence. Qed.

(** A normal pass of the body of [build_price_map] stores the price of a
    valid entry under its title and leaves the map alone otherwise. *)
Lemma catalogue_entry_Ok item price_map out price_map' out' :
  catalogue_entry str item price_map out = (Ok price_map', out') ->
  match valid_entry item with
  | Some (title, n) => exists k, key_of title = Ok k /\ price_map' = <[k := n]> price_map
  | None => price_map' = price_map
  end.
Proof.
  unfold catalogue_entry, valid_entry. intros H.
  apply bind_Ok in H as (title & o1 & H1 & H). apply lift_Ok in H1 as [H1 ->].
  apply bind_Ok in H as (price & o2 & H2 & H). apply lift_Ok in H2 as [H2 ->].
  rewrite H1, H2.
  destruct (is_None title) eqn:Ht; simpl in H.
  - apply bind_Ok in H as (u & o3 & _ & H). injection H as <- _. reflexivity.
  - destruct (is_None price) eqn:Hp; simpl in H.
    + rewrite (is_None_not_number _ Hp).
      apply bind_Ok in H as (u & o3 & _ & H). injection H as <- _. reflexivity.
    + destruct (as_number price) as [n|].
      * destruct (lt_zero n).
        -- apply bind_Ok in H as (u & o3 & _ & H). injection H as <- _. reflexivity.
        -- apply lift_Ok in H as [H _]. unfold dict_setitem in H.
           destruct (key_of title) as [k|e]; [|discriminate H].
           injection H as <-. exists k. split; reflexivity.
      * apply bind_Ok in H as (u & o3 & _ & H). injection H as <- _. reflexivity.
Qed.

Lemma catalogue_loop_lookup catalogue : forall price_map out price_map' out',
  for_each (catalogue_entry str) catalogue price_map out = (Ok price_map', out') ->
  forall k, price_map' !! k =
            match last_valid_price catalogue k with
            | Some n => Some n
            | None => price_map !! k
            end.
Proof.
  induction catalogue as [|item rest IH]; intros pm out pm' out' H k; simpl in H.
  - injection H as <- _. reflexivity.
  - apply bind_Ok in H as (pm1 & out1 & H1 & H2).
    rewrite (IH _ _ _ _ H2 k). simpl.
    destruct (last_valid_price rest k) as [n|]; [reflexivity|].
    apply catalogue_entry_Ok in H1.
    destruct (valid_entry item) as [[title n]|]; [|subst pm1; reflexivity].
    destruct H1 as (k' & Hk' & ->).
    destruct (decide (key_of title = Ok k)) as [Hk|Hk].
    + rewrite Hk in Hk'. injection Hk' as <-. apply lookup_insert_eq.
    + rewrite lookup_insert_ne; [reflexivity|]. intros ->. contradiction.
Qed.

(** The map [build_price_map] returns gives each key the price of the
    last valid entry of that title, and has no other key. *)
Lemma build_price_map_lookup catalogue out price_map out' :
  build_price_map str catalogue out = (Ok price_map, out') ->
  forall k, price_map !! k = last_valid_price catalogue k.
Proof.
  unfold build_price_map. intros H k.
  rewrite (catalogue_loop_lookup _ _ _ _ _ H k), lookup_empty.
  destruct (last_valid_price catalogue k); reflexivity.
Qed.

Lemma last_valid_price_Some catalogue k n :
  last_valid_price catalogue k = Some n ->
  exists item title,
    In item catalogue /\ valid_entry item = Some (title, n) /\ key_of title = Ok k.
Proof.
  induction catalogue as [|item rest IH]; simpl; [discriminate|].
  destruct (last_valid_price rest k) as [n'|].
  - intros H. injection H as ->.
    destruct (IH eq_refl) as (i & t & Hin & Hv & Hk). exists i, t. tauto.
  - destruct (valid_entry item) as [[title n']|] eqn:Hv; [|discriminate].
    destruct (decide (key_of title = Ok k)) as [Hk|]; [|discriminate].
    intros H. injection H as ->. exists item, title. tauto.
Qed.

Lemma last_valid_price_is_Some catalogue item title n k :
  In item catalogue -> valid_entry item = Some (title, n) -> key_of title = Ok k ->
  is_Some (last_valid_price catalogue k).
Proof.
  induction catalogue as [|x rest IH]; simpl; [tauto|].
  intros [->|Hin] Hv Hk.
  - destruct (last_valid_price rest k); [eauto|].
    rewrite Hv. rewrite decide_True by exact Hk. eauto.
  - destruct (IH Hin Hv Hk) as [n' ->]. eauto.
Qed.

Lemma last_valid_price_None post k :
  (forall item title n, In item post -> valid_entry item = Some (title, n) ->
                        key_of title <> Ok k) ->
  last_valid_price post k = None.
Proof.
  intros Hno. destruct (last_valid_price post k) as [n|] eqn:H; [|reflexivity].
  apply last_valid_price_Some in H as (i & t & Hin & Hv & Hk).
  destruct (Hno _ _ _ Hin Hv Hk).
Qed.

Lemma last_valid_price_app pre post k :
  last_valid_price (pre ++ post) k =
  match last_valid_price post k with
  | Some n => Some n
  | None => last_valid_price pre k
  end.
Proof.
  induction pre as [|x pre IH]; simpl.
  - destruct (last_valid_price post k); reflexivity.
  - rewrite IH. destruct (last_valid_price post k); reflexivity.
Qed.

(** The last valid entry of a title decides the price of its key. *)
Lemma last_valid_price_last pre item post title n k :
  valid_entry item = Some (title, n) -> key_of title = Ok k ->
  (forall item' title' n', In item' post -> valid_entry item' = Some (title', n') ->
                           key_of title' <> Ok k) ->
  last_valid_price (pre ++ item :: post) k = Some n.
Proof.
  intros Hv Hk Hno. rewrite last_valid_price_app. simpl.
  rewrite (last_valid_price_None post k Hno), Hv.
  rewrite decide_True by exact Hk. reflexivity.
Qed.

Lemma valid_entry_not_negative item title n :
  valid_entry item = Some (title, n) -> lt_zero n = false.
Proof.
  unfold valid_entry.
  destruct (py_get item "title" PNone) as [t|]; [|discriminate].
  destruct (py_get item "price" PNone) as [p|]; [|discriminate].
  destruct (is_None t); [discriminate|].
  destruct (as_number p) as [m|]; [|discriminate].
  destruct (lt_zero m) eqn:Hm; [discriminate|].
  intros H. injection H as _ <-. exact Hm.
Qed.

(** C3 (amended): when [build_price_map] returns a map, every stored
    price is a number that is not below zero; the keys are exactly the
    titles of the valid entries; and a valid entry is mapped to exactly
    its price when no later valid entry has the same title.  An empty
    catalogue gives the empty map. *)
Theorem price_map_holds_the_valid_entries catalogue out price_map out' :
  build_price_map str catalogue out = (Ok price_map, out') ->
  (forall k n, price_map !! k = Some n -> lt_zero n = false) /\
  (forall k, is_Some (price_map !! k) <->
             exists item title n,
               In item catalogue /\ valid_entry item = Some (title, n) /\
               key_of title = Ok k) /\
  (forall pre item post title n k,
      catalogue = pre ++ item :: post ->
      valid_entry item = Some (title, n) -> key_of title = Ok k ->
      (forall item' title' n', In item' post ->
          valid_entry item' = Some (title', n') -> key_of title' <> Ok k) ->
      price_map !! k = Some n) /\
  (catalogue = [] -> price_map = ∅).
Proof.
  intros H. pose proof (build_price_map_lookup _ _ _ _ H) as Hlook.
  repeat split.
  - intros k n Hk. rewrite Hlook in Hk.
    apply last_valid_price_Some in Hk as (i & t & _ & Hv & _).
    eapply valid_entry_not_negative; exact Hv.
  - intros [n Hn]. rewrite Hlook in Hn.
    apply last_valid_price_Some in Hn as (i & t & Hin & Hv & Hk).
    exists i, t, n. tauto.
  - intros (i & t & n & Hin & Hv & Hk). rewrite Hlook.
    eapply last_valid_price_is_Some; eassumption.
  - intros pre item post title n k -> Hv Hk Hno. rewrite Hlook.
    eapply last_valid_price_last; eassumption.
  - intros ->. apply map_eq. intros k. rewrite Hlook, lookup_empty. reflexivity.
Qed.

(** C6: when two valid entries have the same title, the map
    [build_price_map] returns gives that title the price of the one that
    comes last among the valid entries of that title. *)
Theorem last_duplicate_title_wins
    catalogue l0 first l1 last l2 title1 n1 title2 n2 k out price_map out' :
  catalogue = l0 ++ first :: l1 ++ last :: l2 ->
  valid_entry first = Some (title1, n1) -> key_of title1 = Ok k ->
  valid_entry last = Some (title2, n2) -> key_of title2 = Ok k ->
  (forall item title n, In item l2 -> valid_entry item = Some (title, n) ->
                        key_of title <> Ok k) ->
  build_price_map str catalogue out = (Ok price_map, out') ->
  price_map !! k = Some n2.
Proof.
  intros -> _ _ Hv Hk Hno H.
  rewrite (build_price_map_lookup _ _ _ _ H).
  replace (l0 ++ first :: l1 ++ last :: l2)
    with ((l0 ++ first :: l1) ++ last :: l2)
    by (rewrite <- app_assoc; reflexivity).
  eapply last_valid_price_last; eassumption.
Qed.

(** *** Output is only ever appended to *)

Lemma ret_appends {A} (a : A) : appends_only (ret a).
Proof. intros out. unfold ret. simpl. rewrite app_nil_r. reflexivity. Qed.

Lemma lift_appends {A} (o : outcome A) : appends_only (lift o).
Proof. intros out. unfold lift. simpl. rewrite app_nil_r. reflexivity. Qed.

Lemma print_appends line : appends_only (print line).
Proof. intros out. reflexivity. Qed.

Lemma bind_appends {A B} (m : M A) (k : A -> M B) :
  appends_only m -> (forall a, appends_only (k a)) -> appends_only (bind m k).
Proof.
  intros Hm Hk out. unfold bind. rewrite (Hm out).
  destruct (m []) as [[a|e] o1]; simpl.
  - rewrite (Hk a (out ++ o1)), (Hk a o1). simpl.
    rewrite app_assoc. reflexivity.
  - reflexivity.
Qed.

Lemma for_each_appends {A S} (body : A -> S -> M S) l :
  (forall x s, appends_only (body x s)) -> forall s, appends_only (for_each body l s).
Proof.
  intros Hbody. induction l as [|x l IH]; intros s; simpl.
  - apply ret_appends.
  - apply bind_appends; [apply Hbody | exact IH].
Qed.

Lemma appends_only_outcome {A} (m : M A) out1 out2 :
  appends_only m -> fst (m out1) = fst (m out2).
Proof. intros H. rewrite (H out1), (H out2). reflexivity. Qed.

Ltac appends :=
  repeat first
    [ apply ret_appends | apply lift_appends | apply print_appends
    | apply bind_appends; [|intros ?]
    | match goal with
      | |- appends_only (if ?b then _ else _) => destruct b
      | |- appends_only (match ?o with Some _ => _ | None => _ end) => destruct o
      end ].

Lemma sale_item_appends price_map sid item t :
  appends_only (sale_item str price_map sid item t).
Proof. unfold sale_item. appends. Qed.

Lemma catalogue_entry_appends item price_map :
  appends_only (catalogue_entry str item price_map).
Proof. unfold catalogue_entry. appends. Qed.

(** *** Items of a sale *)

Lemma py_get_dict item k default v :
  py_get item k default = Ok v -> exists d, item = PDict d.
Proof. destruct item; simpl; try discriminate. eauto. Qed.

Lemma py_get_other item k default v k' default' :
  py_get item k default = Ok v -> exists v', py_get item k' default' = Ok v'.
Proof. intros H. apply py_get_dict in H as [d ->]. simpl. eauto. Qed.

(** An item whose product is not in the price map is passed over: one
    error line, the running total untouched. *)
Lemma sale_item_unknown price_map sid item product t out :
  py_get item "Product" PNone = Ok product ->
  dict_contains price_map product = Ok false ->
  sale_item str price_map sid item t out
    = (Ok t, out ++ [unknown_product_error str product sid]).
Proof.
  intros Hp Hc. unfold sale_item.
  destruct (py_get_other _ _ _ _ "Quantity" (PInt 0) Hp) as [q Hq].
  rewrite (bind_lift_Ok _ _ _ _ Hp), (bind_lift_Ok _ _ _ _ Hq),
          (bind_lift_Ok _ _ _ _ Hc).
  reflexivity.
Qed.

(** An item of a known product whose quantity is not a number, or is a
    number [<= 0], is passed over with one warning line. *)
Lemma sale_item_invalid_quantity price_map sid item product quantity t out :
  py_get item "Product" PNone = Ok product ->
  py_get item "Quantity" (PInt 0) = Ok quantity ->
  dict_contains price_map product = Ok true ->
  match as_number quantity with Some q => le_zero q = true | None => True end ->
  sale_item str price_map sid item t out
    = (Ok t, out ++ [invalid_quantity_warning str product sid quantity]).
Proof.
  intros Hp Hq Hc Hbad. unfold sale_item.
  rewrite (bind_lift_Ok _ _ _ _ Hp), (bind_lift_Ok _ _ _ _ Hq),
          (bind_lift_Ok _ _ _ _ Hc).
  simpl negb. cbv iota.
  destruct (as_number quantity) as [q|]; [rewrite Hbad|]; reflexivity.
Qed.

Lemma dict_contains_true price_map product :
  dict_contains price_map product = Ok true ->
  exists k price, key_of product = Ok k /\ price_map !! k = Some price.
Proof.
  unfold dict_contains. destruct (key_of product) as [k|]; [|discriminate].
  intros H. injection H as H. apply bool_decide_eq_true in H as [p Hp]. eauto.
Qed.

(** An item of a known product with a valid quantity adds
    [price_map[product] * quantity] to the running total. *)
Lemma sale_item_valid price_map sid item product quantity q k price t out :
  py_get item "Product" PNone = Ok product ->
  py_get item "Quantity" (PInt 0) = Ok quantity ->
  key_of product = Ok k -> price_map !! k = Some price ->
  as_number quantity = Some q -> le_zero q = false ->
  sale_item str price_map sid item t out = (accumulate t price q, out).
Proof.
  intros Hp Hq Hk Hprice Hn Hle. unfold sale_item.
  assert (Hc : dict_contains price_map product = Ok true).
  { unfold dict_contains. rewrite Hk, Hprice. reflexivity. }
  assert (Hg : dict_getitem price_map product = Ok price).
  { unfold dict_getitem. rewrite Hk, Hprice. reflexivity. }
  rewrite (bind_lift_Ok _ _ _ _ Hp), (bind_lift_Ok _ _ _ _ Hq),
          (bind_lift_Ok _ _ _ _ Hc).
  simpl negb. cbv iota zeta. rewrite Hn, Hle.
  unfold accumulate, bind, lift. rewrite Hg.
  destruct (py_mul price q); reflexivity.
Qed.

Lemma gt_zero_not_le_zero q : gt_zero q = true -> le_zero q = false.
Proof.
  destruct q as [b|z|f]; simpl.
  - intros ->. reflexivity.
  - intros H. apply Z.ltb_lt in H. apply Z.leb_gt. exact H.
  - rewrite ltb_spec, leb_spec.
    replace (Prim2SF 0) with (S754_zero false) by reflexivity.
    unfold SFltb, SFleb, SFcompare.
    destruct (Prim2SF f) as [s|s| |s m e]; try destruct s; congruence.
Qed.






(** *** Normal termination on plain input *)

Lemma for_each_total {A S} (body : A -> S -> M S) (Q : A -> Prop) (P : S -> Prop) :
  (forall x s out, Q x -> P s ->
      exists s' out', body x s out = (Ok s', out') /\ P s') ->
  forall l, Forall Q l -> forall s out, P s ->
    exists s' out', for_each body l s out = (Ok s', out') /\ P s'.
Proof.
  intros Hbody l Hl. induction Hl as [|x l Hx Hl IH]; intros s out HP; simpl.
  - exists s, out. split; [reflexivity | exact HP].
  - destruct (Hbody x s out Hx HP) as (s1 & out1 & H1 & HP1).
    destruct (IH s1 out1 HP1) as (s2 & out2 & H2 & HP2).
    exists s2, out2. unfold bind. rewrite H1. split; assumption.
Qed.

Lemma int_bound_below_limit : int_bound < float_limit.
Proof. reflexivity. Qed.

(** [float_limit] is the least integer that rounds out of binary64: one
    below it converts to the largest float, and it rounds to infinity. *)
Lemma float_limit_is_exact :
  float_of_int (float_limit - 1) = Ok 0x1.fffffffffffffp+1023%float /\
  SF2Prim (binary_normalize prec emax float_limit 0 false) = infinity /\
  float_of_int float_limit = Raise OverflowError /\
  float_of_int (- float_limit) = Raise OverflowError /\
  float_of_int (2 ^ 53 + 1) = Ok 9007199254740992%float.
Proof. repeat split; vm_compute; reflexivity. Qed.

Lemma float_of_int_small z :
  Z.abs z < float_limit -> exists f, float_of_int z = Ok f.
Proof.
  intros H. unfold float_of_int.
  destruct (float_limit <=? Z.abs z) eqn:E; [apply Z.leb_le in E; lia | eauto].
Qed.

Lemma product_below_limit x y :
  Z.abs x <= int_bound -> Z.abs y <= int_bound -> Z.abs (x * y) < float_limit.
Proof.
  intros Hx Hy. rewrite Z.abs_mul.
  apply Z.le_lt_trans with (int_bound * int_bound).
  - apply Z.mul_le_mono_nonneg; auto using Z.abs_nonneg.
  - reflexivity.
Qed.

Lemma int_value_small n z :
  small_number n = true -> int_value n = Some z -> Z.abs z <= int_bound.
Proof.
  destruct n as [b|x|f]; simpl; intros Hs H; try discriminate; injection H as <-.
  - destruct b; discriminate.
  - apply Z.leb_le. exact Hs.
Qed.

Lemma to_float_small n :
  small_number n = true -> exists f, to_float n = Ok f.
Proof.
  intros Hs. destruct n as [b|x|f]; simpl.
  - apply float_of_int_small. destruct b; reflexivity.
  - apply float_of_int_small. simpl in Hs. apply Z.leb_le in Hs.
    pose proof int_bound_below_limit. lia.
  - eauto.
Qed.

(** Within the bound the accumulation raises nothing. *)
Lemma accumulate_small t price q :
  small_number price = true -> small_number q = true ->
  exists t', accumulate t price q = Ok t'.
Proof.
  intros Hp Hq. unfold accumulate, py_mul.
  destruct (int_value price) as [x|] eqn:Ex.
  - destruct (int_value q) as [y|] eqn:Ey.
    + unfold py_iadd, to_float.
      destruct (float_of_int_small (x * y)) as [f ->]; [|eauto].
      apply product_below_limit;
        [eapply (int_value_small price) | eapply (int_value_small q)]; eassumption.
    + destruct (to_float_small _ Hp) as [fp ->].
      destruct (to_float_small _ Hq) as [fq ->].
      unfold py_iadd, to_float. eauto.
  - destruct (to_float_small _ Hp) as [fp ->].
    destruct (to_float_small _ Hq) as [fq ->].
    unfold py_iadd, to_float. eauto.
Qed.

Lemma hashable_key v : hashable v = true -> exists k, key_of v = Ok k.
Proof. destruct v; simpl; try discriminate; eauto. Qed.

Lemma as_number_small v n :
  small_int v = true -> as_number v = Some n -> small_number n = true.
Proof.
  destruct v; simpl; try discriminate; intros Hs H; injection H as <-; exact Hs.
Qed.

Lemma catalogue_entry_plain item price_map out :
  plain_entry item = true -> small_prices price_map ->
  exists price_map' out',
    catalogue_entry str item price_map out = (Ok price_map', out') /\
    small_prices price_map'.
Proof.
  intros Hplain Hsmall. destruct item as [| | | | | |d]; try discriminate.
  simpl in Hplain. apply andb_true_iff in Hplain as [Hh Hs].
  unfold catalogue_entry, py_get. fold (field d "title" PNone) (field d "price" PNone).
  rewrite !(bind_lift_Ok _ _ _ _ eq_refl).
  destruct (is_None (field d "title" PNone) || is_None (field d "price" PNone)).
  { unfold bind, print, ret. eauto. }
  cbv zeta.
  destruct (as_number (field d "price" PNone)) as [n|] eqn:En.
  2:{ unfold bind, print, ret. eauto. }
  destruct (lt_zero n).
  { unfold bind, print, ret. eauto. }
  destruct (hashable_key _ Hh) as [k Hk].
  unfold lift, dict_setitem. rewrite Hk.
  eexists _, _. split; [reflexivity|].
  intros k' n' Hl. destruct (decide (k = k')) as [->|Hne].
  - rewrite lookup_insert_eq in Hl. injection Hl as <-.
    eapply as_number_small; eassumption.
  - rewrite lookup_insert_ne in Hl by exact Hne. eapply Hsmall. exact Hl.
Qed.

Lemma build_price_map_plain catalogue out :
  forallb plain_entry catalogue = true ->
  exists price_map out',
    build_price_map str catalogue out = (Ok price_map, out') /\
    small_prices price_map.
Proof.
  intros H. unfold build_price_map.
  apply (for_each_total (catalogue_entry str)
           (fun item => plain_entry item = true) small_prices).
  - intros item pm o Hitem Hpm. apply catalogue_entry_plain; assumption.
  - apply List.Forall_forall. intros x Hx.
    rewrite forallb_forall in H. apply H. exact Hx.
  - intros k n Hl. rewrite lookup_empty in Hl. discriminate.
Qed.

Lemma sale_item_plain price_map sid item t out :
  small_prices price_map -> plain_item item = true ->
  exists t' out', sale_item str price_map sid item t out = (Ok t', out').
Proof.
  intros Hsmall Hplain. destruct item as [| | | | | |d]; try discriminate.
  simpl in Hplain. apply andb_true_iff in Hplain as [Hh Hs].
  destruct (hashable_key _ Hh) as [k Hk].
  set (product := field d "Product" PNone) in *.
  set (quantity := field d "Quantity" (PInt 0)) in *.
  assert (Hp : py_get (PDict d) "Product" PNone = Ok product) by reflexivity.
  assert (Hq : py_get (PDict d) "Quantity" (PInt 0) = Ok quantity) by reflexivity.
  destruct (price_map !! k) as [price|] eqn:Hprice.
  - destruct (as_number quantity) as [q|] eqn:En.
    + destruct (le_zero q) eqn:Hle.
      * rewrite (sale_item_invalid_quantity price_map sid _ product quantity);
          try assumption; [eauto| |].
        -- unfold dict_contains. rewrite Hk, Hprice. reflexivity.
        -- rewrite En. exact Hle.
      * rewrite (sale_item_valid price_map sid _ product quantity q k price);
          try assumption.
        destruct (accumulate_small t price q) as [t' ->]; [| |eauto].
        -- eapply Hsmall. exact Hprice.
        -- eapply as_number_small; eassumption.
    + rewrite (sale_item_invalid_quantity price_map sid _ product quantity);
        try assumption; [eauto| |].
      * unfold dict_contains. rewrite Hk, Hprice. reflexivity.
      * rewrite En. exact I.
  - rewrite (sale_item_unknown price_map sid _ product); try assumption; [eauto|].
    unfold dict_contains. rewrite Hk, Hprice. reflexivity.
Qed.

Lemma sale_record_plain price_map sale results grand_total out :
  small_prices price_map -> plain_sale sale = true ->
  exists r g out',
    sale_record str price_map sale (results, grand_total) out
    = (Ok (results ++ [r], g), out').
Proof.
  intros Hsmall Hplain. destruct sale as [| | | | | |d]; try discriminate.
  simpl in Hplain.
  destruct (field d "Items" (PList [])) as [| | | | |items|] eqn:Hitems;
    try discriminate.
  unfold sale_record, py_get. fold (field d "Items" (PList [])).
  rewrite !(bind_lift_Ok _ _ _ _ eq_refl). rewrite Hitems.
  rewrite (bind_lift_Ok (py_iter (PList items)) _ items) by reflexivity.
  set (sid := match assoc d "SALE_ID" with Some x => x | None => PStr "UNKNOWN" end).
  destruct (for_each_total (sale_item str price_map sid)
              (fun item => plain_item item = true) (fun _ => True)) 
    with (l := items) (s := 0%float) (out := out)
    as (tot & out' & Hloop & _).
  - intros item t o Hitem _.
    destruct (sale_item_plain price_map sid item t o Hsmall Hitem) as (t' & o' & H).
    eauto.
  - apply List.Forall_forall. intros x Hx.
    rewrite forallb_forall in Hplain. apply Hplain. exact Hx.
  - exact I.
  - unfold bind at 1. rewrite Hloop. unfold ret. eauto.
Qed.

Lemma compute_sales_plain price_map sales : forall results grand_total out,
  small_prices price_map -> forallb plain_sale sales = true ->
  exists new g out',
    for_each (sale_record str price_map) sales (results, grand_total) out
    = (Ok (results ++ new, g), out') /\ length new = length sales.
Proof.
  induction sales as [|sale sales IH]; intros rs g out Hsmall Hplain;
    cbn [for_each].
  - exists [], g, out. rewrite app_nil_r. split; reflexivity.
  - simpl in Hplain. apply andb_true_iff in Hplain as [Hsale Hrest].
    destruct (sale_record_plain price_map sale rs g out Hsmall Hsale)
      as (r & g1 & out1 & H1).
    destruct (IH (rs ++ [r]) g1 out1 Hsmall Hrest) as (new & g2 & out2 & H2 & Hlen).
    exists (r :: new), g2, out2. unfold bind. rewrite H1, H2.
    rewrite <- app_assoc. simpl. split; [reflexivity | congruence].
Qed.

(** C7 (amended): on well-formed input whose titles and products are
    hashable and whose integer prices and quantities are at most
    [2^511] in magnitude, [build_price_map] followed by [compute_sales]
    raises nothing and returns one result per sale record. *)
Theorem pipeline_completes_on_plain_input catalogue sales out :
  forallb plain_entry catalogue = true ->
  forallb plain_sale sales = true ->
  exists results grand_total out',
    pipeline str catalogue sales out = (Ok (results, grand_total), out') /\
    length results = length sales.
Proof.
  intros Hcat Hsales. unfold pipeline.
  destruct (build_price_map_plain catalogue out Hcat) as (pm & out1 & Hpm & Hsmall).
  destruct (compute_sales_plain pm sales [] 0%float out1 Hsmall Hsales)
    as (new & g & out2 & H & Hlen).
  exists new, g, out2. unfold bind. rewrite Hpm. unfold compute_sales.
  split; [exact H | exact Hlen].
Qed.

(** *** The report *)

Lemma append_cons c a b : String c a +:+ b = String c (a +:+ b).
Proof. reflexivity. Qed.

Lemma append_assoc a b c : (a +:+ b) +:+ c = a +:+ (b +:+ c).
Proof.
  induction a as [|x a IH]; [reflexivity|].
  rewrite !append_cons, IH. reflexivity.
Qed.

Lemma length_append a b :
  String.length (a +:+ b) = (String.length a + String.length b)%nat.
Proof.
  induction a as [|x a IH]; [reflexivity|].
  rewrite append_cons. cbn [String.length]. rewrite IH. reflexivity.
Qed.

Lemma list_of_append a b :
  list_ascii_of_string (a +:+ b) = list_ascii_of_string a ++ list_ascii_of_string b.
Proof.
  induction a as [|c a IH]; [reflexivity|].
  rewrite append_cons. cbn [list_ascii_of_string]. rewrite IH. reflexivity.
Qed.

Lemma digits_append a b : digits (a +:+ b) = digits a && digits b.
Proof. unfold digits. rewrite list_of_append. apply forallb_app. Qed.

Lemma digit_char_is_digit n : is_digit (digit_char (n mod 10)) = true.
Proof.
  unfold digit_char.
  assert (H : (Z.to_nat (n mod 10) < 10)%nat).
  { pose proof (Z.mod_pos_bound n 10 eq_refl). lia. }
  destruct (Z.to_nat (n mod 10)) as [|m]; [reflexivity|].
  do 9 (destruct m as [|m]; [reflexivity|]). lia.
Qed.

Lemma low_digits_length p : forall n, String.length (low_digits p n) = p.
Proof.
  induction p as [|p IH]; intros n; simpl; [reflexivity|].
  rewrite length_append, IH. simpl. lia.
Qed.

Lemma low_digits_digits p : forall n, digits (low_digits p n) = true.
Proof.
  induction p as [|p IH]; intros n; simpl; [reflexivity|].
  rewrite digits_append, IH. unfold digits.
  cbn [list_ascii_of_string forallb andb].
  rewrite digit_char_is_digit. reflexivity.
Qed.

Lemma uint_digits d : digits (NilEmpty.string_of_uint d) = true.
Proof. unfold digits. induction d; simpl; auto. Qed.

Lemma decimal_digits n : digits (decimal n) = true /\ decimal n <> "".
Proof.
  unfold decimal. destruct (N.to_uint (Z.to_N n)) as [|d|d|d|d|d|d|d|d|d|d] eqn:E;
    (split; [|simpl; discriminate]);
    try reflexivity;
    pose proof (uint_digits (N.to_uint (Z.to_N n))) as H; rewrite E in H; exact H.
Qed.

Lemma group_thousands_grouped n : forall l,
  (length l <= n)%nat -> l <> [] -> forallb is_digit l = true ->
  well_grouped (group_thousands l) = true.
Proof.
  induction n as [|n IH]; intros l Hlen Hne Hd.
  - destruct l; [contradiction | simpl in Hlen; lia].
  - destruct l as [|a [|b [|c [|d rest]]]]; [contradiction | | | |].
    + cbn [forallb] in Hd. apply andb_true_iff in Hd as [Ha _].
      cbn [group_thousands well_grouped]. exact Ha.
    + cbn [forallb] in Hd.
      apply andb_true_iff in Hd as [Ha Hd]. apply andb_true_iff in Hd as [Hb _].
      cbn [group_thousands well_grouped]. rewrite Ha, Hb. reflexivity.
    + cbn [forallb] in Hd.
      apply andb_true_iff in Hd as [Ha Hd]. apply andb_true_iff in Hd as [Hb Hd].
      apply andb_true_iff in Hd as [Hc _].
      cbn [group_thousands well_grouped]. rewrite Ha, Hb, Hc. reflexivity.
    + cbn [forallb] in Hd.
      apply andb_true_iff in Hd as [Ha Hd].
      apply andb_true_iff in Hd as [Hb Hd].
      apply andb_true_iff in Hd as [Hc Hd].
      assert (Hrest : well_grouped (group_thousands (d :: rest)) = true).
      { apply IH; [simpl in *; lia | discriminate | exact Hd]. }
      change (group_thousands (a :: b :: c :: d :: rest))
        with (a :: b :: c :: ","%char :: group_thousands (d :: rest)).
      cbn [well_grouped]. rewrite Ha, Hb, Hc, Hrest. reflexivity.
Qed.

Lemma thousands_grouped w :
  digits w = true -> w <> "" ->
  well_grouped (rev (list_ascii_of_string (thousands w))) = true.
Proof.
  intros Hd Hne. unfold thousands.
  rewrite list_ascii_of_string_of_list_ascii, rev_involutive.
  apply (group_thousands_grouped (length (rev (list_ascii_of_string w)))).
  - lia.
  - destruct w as [|c w]; [contradiction|]. simpl.
    intros H. apply app_eq_nil in H as [_ H]. discriminate H.
  - unfold digits in Hd. rewrite forallb_forall in *.
    intros x Hx. apply Hd. apply in_rev. exact Hx.
Qed.

Lemma fixed_point_notation comma p n :
  exists whole frac,
    fixed_point comma (S p) n = whole +:+ "." +:+ frac /\
    (if comma then well_grouped (rev (list_ascii_of_string whole)) = true
     else digits whole = true /\ whole <> "") /\
    String.length frac = S p /\ digits frac = true.
Proof.
  unfold fixed_point.
  destruct (decimal_digits (n / 10 ^ Z.of_nat (S p))) as [Hd Hne].
  eexists _, _. split; [reflexivity|]. split; [|split].
  - destruct comma; [apply thousands_grouped; assumption | split; assumption].
  - apply low_digits_length.
  - apply low_digits_digits.
Qed.

(** A finite value is written with exactly the requested number of
    decimal places. *)
Lemma format_f_finite comma p x :
  finite x = true -> fixed_notation comma (S p) (format_f comma (S p) x).
Proof.
  unfold finite, format_f, fixed_notation.
  destruct (Prim2SF x) as [s|s| |s m e]; try discriminate; intros _.
  - destruct (fixed_point_notation comma p 0) as (w & f & -> & Hw & Hl & Hf).
    exists (sign_text s), w, f. repeat split; try assumption.
    destruct s; [right | left]; reflexivity.
  - destruct (fixed_point_notation comma p (scaled m e (S p)))
      as (w & f & -> & Hw & Hl & Hf).
    exists (sign_text s), w, f. repeat split; try assumption.
    destruct s; [right | left]; reflexivity.
Qed.

Lemma result_lines_block lines r :
  result_lines str lines r = lines ++ result_block str r.
Proof.
  unfold result_lines, result_block. rewrite <- !app_assoc. reflexivity.
Qed.

Lemma fold_result_lines results : forall lines,
  fold_left (result_lines str) results lines
  = lines ++ flat_map (result_block str) results.
Proof.
  induction results as [|r results IH]; intros lines; cbn [fold_left flat_map].
  - rewrite app_nil_r. reflexivity.
  - rewrite IH, result_lines_block, <- app_assoc. reflexivity.
Qed.

Lemma join_snoc sep x : forall l,
  l <> [] -> join sep (l ++ [x]) = join sep l +:+ sep +:+ x.
Proof.
  induction l as [|a l IH]; intros Hne; [contradiction|].
  destruct l as [|b l].
  - reflexivity.
  - change (join sep ((a :: b :: l) ++ [x]))
      with (a +:+ sep +:+ join sep ((b :: l) ++ [x])).
    rewrite IH by discriminate.
    change (join sep (a :: b :: l)) with (a +:+ sep +:+ join sep (b :: l)).
    rewrite !append_assoc. reflexivity.
Qed.

Lemma format_output_lines results grand_total elapsed_time :
  format_output str results grand_total elapsed_time
  = join newline (report_body str results grand_total ++ [time_line elapsed_time]).
Proof.
  unfold format_output, report_body. rewrite fold_result_lines.
  cbn [app]. rewrite <- !app_assoc. reflexivity.
Qed.

(** C8 (amended): the report is its lines joined by newlines, with no
    newline after the last: the banner of 50 [=], the title line, the
    banner; for each result in order its id, customer and total lines
    and a line of 50 [-]; then the grand total line, the banner and the
    execution time line.  A finite total or grand total is written with
    thousands separators and exactly 2 decimal places, a finite elapsed
    time with exactly 4. *)
Theorem report_layout results grand_total elapsed_time :
  format_output str results grand_total elapsed_time
  = join newline
      ([banner_line; title_line; banner_line]
       ++ flat_map (fun r => [ "Sale ID  : " +:+ str (sale_id r);
                               "Customer : " +:+ str (customer r);
                               "Total    : $" +:+ format_f true 2 (total r);
                               separator_line ]) results
       ++ [ "GRAND TOTAL: $" +:+ format_f true 2 grand_total;
            banner_line;
            "Execution time: " +:+ format_f false 4 elapsed_time +:+ " seconds" ]) /\
  format_output str results grand_total elapsed_time
  = join newline (report_body str results grand_total)
    +:+ newline +:+ time_line elapsed_time /\
  String.length banner_line = 50%nat /\
  String.length separator_line = 50%nat /\
  (forall x, finite x = true ->
     fixed_notation true 2 (format_f true 2 x) /\
     fixed_notation false 4 (format_f false 4 x)).
Proof.
  split; [|split; [|split; [|split]]].
  - rewrite format_output_lines. unfold report_body, time_line.
    rewrite <- !app_assoc. reflexivity.
  - rewrite format_output_lines. apply join_snoc. discriminate.
  - reflexivity.
  - reflexivity.
  - intros x Hx. split; apply format_f_finite; exact Hx.
Qed.

(** C9 (amended): the line between the two opening banners is the title
    after 11 spaces, 31 characters in all; in the 50 columns of the
    banner that leaves 19 after it, so the title is indented, not
    centred, which would take 15 spaces. *)
Theorem title_line_is_indented results grand_total elapsed_time :
  (exists rest,
     format_output str results grand_total elapsed_time
     = banner_line +:+ newline +:+ title_line +:+ newline
       +:+ banner_line +:+ newline +:+ rest) /\
  title_line = str_repeat " " 11 +:+ "SALES RESULTS REPORT" /\
  leading_spaces title_line = 11%nat /\
  String.length title_line = 31%nat /\
  String.length banner_line = 50%nat /\
  centred 50 title_line = false /\
  centred 50 (str_repeat " " 15 +:+ "SALES RESULTS REPORT") = true.
Proof.
  split; [|repeat split; reflexivity].
  rewrite format_output_lines. unfold report_body.
  destruct (flat_map (result_block str) results
            ++ ["GRAND TOTAL: $" +:+ format_f true 2 grand_total; banner_line])
    as [|x l] eqn:E.
  - apply app_eq_nil in E as [_ E]. discriminate E.
  - cbn [app].
    exists (join newline (x :: l ++ [time_line elapsed_time])).
    destruct l; reflexivity.
Qed.

End Properties.

(** ** The properties on the example data *)

(** C1 on the shop: the grand total 7.5 is the sum of the totals 7.5 and
    0.0. *)
Lemma grand_total_of_shop_sales :
  compute_sales show shop_sales shop_prices []
    = (Ok (shop_results, 7.5%float), shop_output) /\
  7.5%float = sum_totals shop_results.
Proof.
  assert (H : compute_sales show shop_sales shop_prices []
              = (Ok (shop_results, 7.5%float), shop_output))
    by (vm_compute; reflexivity).
  split; [exact H | exact (grand_total_is_sum_of_totals show _ _ _ _ _ _ H)].
Defined.

(** C2 on the shop: two sale records, two results in their order; every
    item of the second record is skipped and its result is there. *)
Lemma results_of_shop_sales :
  compute_sales show shop_sales shop_prices []
    = (Ok (shop_results, 7.5%float), shop_output) /\
  length shop_results = length shop_sales /\
  Forall2 result_of_sale shop_sales shop_results.
Proof.
  assert (H : compute_sales show shop_sales shop_prices []
              = (Ok (shop_results, 7.5%float), shop_output))
    by (vm_compute; reflexivity).
  split; [exact H | exact (one_result_per_sale_in_order show _ _ _ _ _ _ H)].
Defined.

(** C3 on the shop: only the Apple is in the map. *)
Lemma price_map_of_shop_catalogue :
  build_price_map show shop_catalogue []
    = (Ok shop_prices,
       [ "WARNING: Invalid price for 'Widget': -5. Skipping.";
         "WARNING: Skipping invalid catalogue entry: {'title': 'Ghost'}" ]) /\
  (forall k n, shop_prices !! k = Some n -> lt_zero n = false) /\
  (forall k, is_Some (shop_prices !! k) <->
             exists item title n,
               In item shop_catalogue /\ valid_entry item = Some (title, n) /\
               key_of title = Ok k).
Proof.
  assert (H : build_price_map show shop_catalogue []
              = (Ok shop_prices,
                 [ "WARNING: Invalid price for 'Widget': -5. Skipping.";
                   "WARNING: Skipping invalid catalogue entry: {'title': 'Ghost'}" ]))
    by (vm_compute; reflexivity).
  pose proof (price_map_holds_the_valid_entries show _ _ _ _ H) as (H1 & H2 & _).
  split; [exact H | split; [exact H1 | exact H2]].
Defined.

(** C3 as stated fails: the first Apple entry is valid at price 1 and the
    map gives Apple the price 2; and a NaN price, which is not below zero
    and not at least zero either, is stored. *)
Lemma earlier_duplicate_is_not_mapped :
  build_price_map show twice_catalogue [] = (Ok twice_prices, []) /\
  ~ maps_every_valid_entry twice_catalogue twice_prices /\
  build_price_map show nan_catalogue [] = (Ok {[ KStr "Void" := NFloat nan ]}, []) /\
  ge_zero (NFloat nan) = false.
Proof.
  split; [vm_compute; reflexivity|]. split; [|split; vm_compute; reflexivity].
  intros H.
  destruct (H (entry (PStr "Apple") (PInt 1)) (PStr "Apple") (NInt 1))
    as (k & Hk & Hl).
  - left. reflexivity.
  - reflexivity.
  - injection Hk as <-. vm_compute in Hl. discriminate Hl.
Defined.

(** C6 on two Apple entries: the later price, 2, is the one stored. *)
Lemma second_apple_price_wins :
  build_price_map show twice_catalogue [] = (Ok twice_prices, []) /\
  twice_prices !! KStr "Apple" = Some (NInt 2).
Proof.
  assert (H : build_price_map show twice_catalogue [] = (Ok twice_prices, []))
    by (vm_compute; reflexivity).
  split; [exact H|].
  apply (last_duplicate_title_wins show twice_catalogue
           [] (entry (PStr "Apple") (PInt 1))
           [entry (PStr "Pear") (PInt 4)] (entry (PStr "Apple") (PInt 2)) []
           (PStr "Apple") (NInt 1) (PStr "Apple") (NInt 2) (KStr "Apple")
           [] twice_prices []);
    [reflexivity | reflexivity | reflexivity | reflexivity | reflexivity
    | intros item title n [] | exact H].
Defined.


(** C7 as stated fails: each input is well-formed, and the pipeline
    raises: an integer price too large for a float, a title that is a
    list, a product that is a list. *)
Lemma pipeline_raises_on_well_formed_input :
  well_formed_input huge_catalogue gold_sales = true /\
  pipeline show huge_catalogue gold_sales [] = (Raise OverflowError, []) /\
  well_formed_input list_title_catalogue bob_sales = true /\
  pipeline show list_title_catalogue bob_sales [] = (Raise TypeError, []) /\
  well_formed_input apple_catalogue list_product_sales = true /\
  pipeline show apple_catalogue list_product_sales [] = (Raise TypeError, []).
Proof. repeat split; vm_compute; reflexivity. Defined.

(** C7 (amended) on the scenario of the specification: one Apple at 2.5,
    bought three times by Bob. *)
Lemma apple_pipeline_completes :
  forallb plain_entry apple_catalogue = true /\
  forallb plain_sale bob_sales = true /\
  exists results grand_total out',
    pipeline show apple_catalogue bob_sales []
      = (Ok (results, grand_total), out') /\
    length results = length bob_sales.
Proof.
  assert (H1 : forallb plain_entry apple_catalogue = true) by reflexivity.
  assert (H2 : forallb plain_sale bob_sales = true) by reflexivity.
  split; [exact H1 | split; [exact H2|]].
  exact (pipeline_completes_on_plain_input show apple_catalogue bob_sales [] H1 H2).
Defined.

Lemma dot_in_fixed_notation comma p s :
  fixed_notation comma p s -> In "."%char (list_ascii_of_string s).
Proof.
  intros (sgn & whole & frac & -> & _).
  rewrite !list_of_append. apply in_or_app. right.
  apply in_or_app. right. left. reflexivity.
Qed.

(** C8 as stated fails: a price of 1e308 bought ten times gives an
    infinite total, which the report writes as [inf], with no decimal
    places. *)
Lemma infinite_total_has_no_decimals :
  pipeline show dear_catalogue dear_sales [] = (Ok (dear_results, infinity), []) /\
  format_output show dear_results infinity 0%float
  = join newline
      [ banner_line; title_line; banner_line;
        "Sale ID  : S1"; "Customer : Bob"; "Total    : $inf"; separator_line;
        "GRAND TOTAL: $inf"; banner_line; "Execution time: 0.0000 seconds" ] /\
  ~ fixed_notation true 2 (format_f true 2 infinity).
Proof.
  split; [vm_compute; reflexivity|]. split; [vm_compute; reflexivity|].
  intros H. apply dot_in_fixed_notation in H. vm_compute in H.
  repeat (destruct H as [H|H]; [discriminate H|]). exact H.
Defined.

(** C9 as stated fails: the second line of the report has 11 spaces
    before the title and would leave 19 after it. *)
Lemma title_line_is_not_centred :
  format_output show [] 0%float 0%float
  = join newline
      [ banner_line; title_line; banner_line;
        "GRAND TOTAL: $0.00"; banner_line; "Execution time: 0.0000 seconds" ] /\
  leading_spaces title_line = 11%nat /\
  (50 - String.length title_line)%nat = 19%nat /\
  centred 50 title_line = false.
Proof. repeat split; vm_compute; reflexivity. Defined.

(** ** Further properties of the code *)

Section Extras.

Variable str : pyval -> string.

(** *** Exceptions of [build_price_map] *)

Lemma unhashable_key v : hashable v = false -> key_of v = Raise TypeError.
Proof. destruct v; simpl; try discriminate; reflexivity. Qed.

(** The outcome of one pass of the body of [build_price_map]. *)
Lemma catalogue_entry_outcome item price_map out :
  fst (catalogue_entry str item price_map out) =
  if is_dict item then
    match valid_entry item with
    | Some (title, n) =>
        match key_of title with
        | Ok k => Ok (<[k := n]> price_map)
        | Raise e => Raise e
        end
    | None => Ok price_map
    end
  else Raise AttributeError.
Proof.
  destruct item as [| | | | | |d]; try reflexivity.
  unfold catalogue_entry, valid_entry, py_get.
  rewrite !(bind_lift_Ok _ _ _ _ eq_refl).
  set (title := match assoc d "title" with Some x => x | None => PNone end).
  set (price := match assoc d "price" with Some x => x | None => PNone end).
  cbn [is_dict].
  destruct (is_None title) eqn:Ht; [reflexivity|].
  destruct (is_None price) eqn:Hp.
  - rewrite (is_None_not_number _ Hp). reflexivity.
  - cbn [orb]. cbv zeta.
    destruct (as_number price) as [n|]; [|reflexivity].
    destruct (lt_zero n); [reflexivity|].
    unfold lift, dict_setitem. destruct (key_of title); reflexivity.
Qed.

Lemma catalogue_loop_outcome catalogue : forall price_map out,
  match first_failure catalogue with
  | None => exists built, fst (for_each (catalogue_entry str) catalogue price_map out)
                          = Ok built
  | Some e => fst (for_each (catalogue_entry str) catalogue price_map out) = Raise e
  end.
Proof.
  induction catalogue as [|item rest IH]; intros pm out; cbn [first_failure for_each].
  - exists pm. reflexivity.
  - pose proof (catalogue_entry_outcome item pm out) as Hstep.
    unfold bind. destruct (catalogue_entry str item pm out) as [o out1].
    cbn [fst] in Hstep. subst o.
    destruct (is_dict item); [|reflexivity].
    destruct (valid_entry item) as [[title n]|]; [|apply IH].
    destruct (hashable title) eqn:Hh.
    + destruct (hashable_key _ Hh) as [k ->]. apply IH.
    + rewrite (unhashable_key _ Hh). reflexivity.
Qed.

(** X1: [build_price_map] returns unless some entry is not a dict, or is
    valid but for a title that is a list or a dict; it then raises
    [AttributeError], respectively [TypeError], for the first such entry
    and never anything else. *)
Theorem build_price_map_raises_at_first_failure catalogue out :
  match first_failure catalogue with
  | None => exists price_map, fst (build_price_map str catalogue out) = Ok price_map
  | Some e => fst (build_price_map str catalogue out) = Raise e /\
              (e = AttributeError \/ e = TypeError)
  end.
Proof.
  pose proof (catalogue_loop_outcome catalogue ∅ out) as H.
  unfold build_price_map.
  destruct (first_failure catalogue) as [e|] eqn:E; [|exact H].
  split; [exact H|].
  clear H. revert E. induction catalogue as [|item rest IH]; cbn [first_failure].
  - discriminate.
  - destruct (is_dict item); [|intros H; injection H as <-; left; reflexivity].
    destruct (valid_entry item) as [[title n]|]; [|exact IH].
    destruct (hashable title); [exact IH|].
    intros H. injection H as <-. right. reflexivity.
Qed.

(** *** Warnings of [build_price_map] *)

Lemma catalogue_entry_output item price_map out price_map' out' :
  catalogue_entry str item price_map out = (Ok price_map', out') ->
  match valid_entry item with
  | Some _ => out' = out
  | None => exists line, out' = out ++ [line] /\ is_warning line = true
  end.
Proof.
  unfold catalogue_entry, valid_entry. intros H.
  apply bind_Ok in H as (title & o1 & H1 & H). apply lift_Ok in H1 as [H1 ->].
  apply bind_Ok in H as (price & o2 & H2 & H). apply lift_Ok in H2 as [H2 ->].
  rewrite H1, H2.
  assert (Hskip : forall line pm o,
             is_warning line = true ->
             (print line ;;; ret price_map) out = (Ok pm, o) ->
             exists line, o = out ++ [line] /\ is_warning line = true).
  { intros line pm o Hw Hrun. unfold bind, print, ret in Hrun.
    injection Hrun as _ <-. eauto. }
  destruct (is_None title) eqn:Ht; simpl in H.
  - eapply Hskip; [|exact H]. reflexivity.
  - destruct (is_None price) eqn:Hp; simpl in H.
    + rewrite (is_None_not_number _ Hp). eapply Hskip; [|exact H]. reflexivity.
    + destruct (as_number price) as [n|].
      * destruct (lt_zero n).
        -- eapply Hskip; [|exact H]. reflexivity.
        -- apply lift_Ok in H as [_ ->]. reflexivity.
      * eapply Hskip; [|exact H]. reflexivity.
Qed.

Lemma catalogue_loop_output catalogue : forall price_map out price_map' out',
  for_each (catalogue_entry str) catalogue price_map out = (Ok price_map', out') ->
  exists warnings,
    out' = out ++ warnings /\
    length warnings = length (invalid_entries catalogue) /\
    forallb is_warning warnings = true.
Proof.
  induction catalogue as [|item rest IH]; intros pm out pm' out' H; simpl in H.
  - injection H as _ <-. exists []. rewrite app_nil_r. repeat split.
  - apply bind_Ok in H as (pm1 & out1 & H1 & H2).
    apply catalogue_entry_output in H1.
    apply IH in H2 as (ws & -> & Hlen & Hall).
    unfold invalid_entries. cbn [List.filter].
    destruct (valid_entry item) as [p|].
    + subst out1. exists ws. repeat split; assumption.
    + destruct H1 as (line & -> & Hline). exists (line :: ws).
      rewrite <- app_assoc. repeat split.
      * simpl. f_equal. exact Hlen.
      * simpl. rewrite Hline. exact Hall.
Qed.

(** X2: when [build_price_map] returns, it has printed one line for each
    entry it passed over and none for the entries it stored, each line
    starting with [WARNING: ]. *)
Theorem build_price_map_warns_once_per_invalid_entry catalogue out price_map out' :
  build_price_map str catalogue out = (Ok price_map, out') ->
  exists warnings,
    out' = out ++ warnings /\
    length warnings = length (invalid_entries catalogue) /\
    forallb is_warning warnings = true.
Proof. unfold build_price_map. apply catalogue_loop_output. Qed.

(** *** Catalogues in sequence *)

(** X3: building the map of a catalogue followed by more entries changes
    the price of a title only if one of the further entries is valid and
    has that title. *)
Theorem further_entries_leave_other_titles catalogue more k
    out price_map out1 out' price_map' out1' :
  build_price_map str catalogue out = (Ok price_map, out1) ->
  build_price_map str (catalogue ++ more) out' = (Ok price_map', out1') ->
  (forall item title n, In item more -> valid_entry item = Some (title, n) ->
                        key_of title <> Ok k) ->
  price_map' !! k = price_map !! k.
Proof.
  intros H H' Hno.
  rewrite (build_price_map_lookup str _ _ _ _ H k).
  rewrite (build_price_map_lookup str _ _ _ _ H' k).
  rewrite last_valid_price_app, (last_valid_price_None str more k Hno).
  reflexivity.
Qed.

(** *** Items: added or reported *)

Lemma printed_line line (t t' : float) out out' :
  (print line ;;; ret t) out = (Ok t', out') -> t' = t /\ out' = out ++ [line].
Proof.
  unfold bind, print, ret. intros H. injection H as <- <-. split; reflexivity.
Qed.

(** The two ways an item is got past. *)
Lemma sale_item_cases price_map sid item t out t' out' :
  sale_item str price_map sid item t out = (Ok t', out') ->
  (out' = out /\
   exists product k price quantity q,
     py_get item "Product" PNone = Ok product /\ key_of product = Ok k /\
     price_map !! k = Some price /\
     py_get item "Quantity" (PInt 0) = Ok quantity /\
     as_number quantity = Some q /\ le_zero q = false /\
     accumulate t price q = Ok t') \/
  (t' = t /\
   exists line, out' = out ++ [line] /\
                (is_error line = true \/ is_warning line = true)).
Proof.
  unfold sale_item. intros H.
  apply bind_Ok in H as (product & o1 & H1 & H). apply lift_Ok in H1 as [H1 ->].
  apply bind_Ok in H as (quantity & o2 & H2 & H). apply lift_Ok in H2 as [H2 ->].
  apply bind_Ok in H as (known & o3 & H3 & H). apply lift_Ok in H3 as [H3 ->].
  destruct known; cbn [negb] in H; cbv iota zeta in H.
  - apply dict_contains_true in H3 as (k & price & Hk & Hprice).
    destruct (as_number quantity) as [q|] eqn:Hq.
    + destruct (le_zero q) eqn:Hle.
      * apply printed_line in H as [-> ->]. right. split; [reflexivity|].
        eexists. split; [reflexivity|]. right. reflexivity.
      * apply bind_Ok in H as (price' & o4 & H4 & H). apply lift_Ok in H4 as [H4 ->].
        apply bind_Ok in H as (amount & o5 & H5 & H). apply lift_Ok in H5 as [H5 ->].
        apply lift_Ok in H as [H ->].
        unfold dict_getitem in H4. rewrite Hk, Hprice in H4. injection H4 as <-.
        left. split; [reflexivity|].
        exists product, k, price, quantity, q. repeat split; try assumption.
        unfold accumulate. rewrite H5. exact H.
    + apply printed_line in H as [-> ->]. right. split; [reflexivity|].
      eexists. split; [reflexivity|]. right. reflexivity.
  - apply printed_line in H as [-> ->]. right. split; [reflexivity|].
    eexists. split; [reflexivity|]. left. reflexivity.
Qed.

(** X4: an item that [compute_sales] gets past either adds
    [price_map[product] * quantity] to the running total and prints
    nothing, its product being a key and its quantity a number not
    [<= 0], or leaves the running total as it is and prints exactly one
    line, which starts with [ERROR: ] or [WARNING: ]. *)
Theorem item_is_added_or_reported price_map sid item t out t' out' :
  sale_item str price_map sid item t out = (Ok t', out') ->
  (out' = out /\
   exists product k price quantity q,
     py_get item "Product" PNone = Ok product /\ key_of product = Ok k /\
     price_map !! k = Some price /\
     py_get item "Quantity" (PInt 0) = Ok quantity /\
     as_number quantity = Some q /\ le_zero q = false /\
     accumulate t price q = Ok t') \/
  (t' = t /\
   exists line, out' = out ++ [line] /\
                (is_error line = true \/ is_warning line = true)).
Proof. apply sale_item_cases. Qed.

(** *** Exceptions of [compute_sales] *)

Lemma bind_expected {A B} (m : M A) (k : A -> M B) :
  (forall out, expected (fst (m out))) ->
  (forall a out, expected (fst (k a out))) ->
  forall out, expected (fst (bind m k out)).
Proof.
  intros Hm Hk out. unfold bind. specialize (Hm out).
  destruct (m out) as [[a|e] out1]; [apply Hk | exact Hm].
Qed.

Lemma lift_expected {A} (o : outcome A) out : expected o -> expected (fst (lift o out)).
Proof. intros H. exact H. Qed.

Lemma for_each_expected {A S} (body : A -> S -> M S) :
  (forall x s out, expected (fst (body x s out))) ->
  forall l s out, expected (fst (for_each body l s out)).
Proof.
  intros Hbody l. induction l as [|x l IH]; intros s out; cbn [for_each].
  - exact I.
  - apply bind_expected; [intros o; apply Hbody | intros s' o; apply IH].
Qed.

Lemma py_get_expected v k default : expected (py_get v k default).
Proof. destruct v; simpl; auto. Qed.

Lemma py_iter_expected v : expected (py_iter v).
Proof. destruct v; simpl; auto. Qed.

Lemma key_of_expected v : expected (key_of v).
Proof. destruct v; simpl; auto. Qed.

Lemma float_of_int_expected z : expected (float_of_int z).
Proof.
  unfold float_of_int. destruct (float_limit <=? Z.abs z).
  - right. right. reflexivity.
  - exact I.
Qed.

Lemma to_float_expected n : expected (to_float n).
Proof.
  destruct n as [b|z|f]; cbn [to_float];
    [apply float_of_int_expected | apply float_of_int_expected | exact I].
Qed.

Lemma accumulate_expected t price q : expected (accumulate t price q).
Proof.
  unfold accumulate, py_mul, py_iadd.
  pose proof (to_float_expected price) as Hp.
  pose proof (to_float_expected q) as Hq.
  destruct (int_value price) as [x|]; [destruct (int_value q) as [y|]|].
  - cbv beta iota. pose proof (to_float_expected (NInt (x * y))) as H.
    destruct (to_float (NInt (x * y))); [exact I | exact H].
  - destruct (to_float price); [|exact Hp]. destruct (to_float q); [exact I | exact Hq].
  - destruct (to_float price); [|exact Hp]. destruct (to_float q); [exact I | exact Hq].
Qed.

Lemma sale_item_expected price_map sid item t out :
  expected (fst (sale_item str price_map sid item t out)).
Proof.
  destruct item as [| | | | | |d]; try (right; left; reflexivity).
  unfold sale_item, py_get. rewrite !(bind_lift_Ok _ _ _ _ eq_refl).
  set (product := match assoc d "Product" with Some x => x | None => PNone end).
  set (quantity := match assoc d "Quantity" with Some x => x | None => PInt 0 end).
  pose proof (key_of_expected product) as Hkey.
  unfold dict_contains, dict_getitem.
  destruct (key_of product) as [k|e]; [|exact Hkey].
  cbv beta iota. rewrite (bind_lift_Ok _ _ _ _ eq_refl).
  destruct (price_map !! k) as [price|]; [|exact I].
  change (bool_decide (is_Some (Some price))) with true.
  cbn [negb]. cbv beta iota zeta.
  destruct (as_number quantity) as [q|]; [|exact I].
  destruct (le_zero q); [exact I|].
  cbv beta iota. rewrite (bind_lift_Ok _ _ _ _ eq_refl).
  pose proof (accumulate_expected t price q) as Hacc.
  unfold accumulate in Hacc. unfold bind, lift.
  destruct (py_mul price q); exact Hacc.
Qed.

Lemma sale_record_expected price_map sale acc out :
  expected (fst (sale_record str price_map sale acc out)).
Proof.
  destruct acc as [results grand_total]. unfold sale_record.
  apply bind_expected; [intros o; apply lift_expected, py_get_expected|].
  intros sid o. apply bind_expected; [intros o'; apply lift_expected, py_get_expected|].
  intros cust o'. apply bind_expected; [intros o2; apply lift_expected, py_get_expected|].
  intros items o2. apply bind_expected; [intros o3; apply lift_expected, py_iter_expected|].
  intros its o3. apply bind_expected.
  - intros o4. apply for_each_expected. intros x s o5. apply sale_item_expected.
  - intros tot o4. exact I.
Qed.

Lemma catalogue_entry_expected item price_map out :
  expected (fst (catalogue_entry str item price_map out)).
Proof.
  rewrite catalogue_entry_outcome.
  destruct (is_dict item); [|right; left; reflexivity].
  destruct (valid_entry item) as [[title n]|]; [|exact I].
  pose proof (key_of_expected title) as H.
  destruct (key_of title); [exact I | exact H].
Qed.

(** X5: [compute_sales], and [build_price_map] followed by it, raise
    nothing but [TypeError], [AttributeError] and [OverflowError]: the
    lookup [price_map[product]] comes after the membership test and never
    raises [KeyError]. *)
Theorem no_KeyError sales price_map catalogue out :
  expected (fst (compute_sales str sales price_map out)) /\
  expected (fst (pipeline str catalogue sales out)).
Proof.
  assert (Hc : forall pm o, expected (fst (compute_sales str sales pm o))).
  { intros pm o. unfold compute_sales. apply for_each_expected.
    intros x s o'. apply sale_record_expected. }
  split; [apply Hc|].
  unfold pipeline. apply bind_expected; [|intros pm o; apply Hc].
  intros o. unfold build_price_map. apply for_each_expected.
  intros x s o'. apply catalogue_entry_expected.
Qed.

(** *** Sales in sequence *)

Lemma sale_record_any_start price_map sale results grand_total out acc' out' :
  sale_record str price_map sale (results, grand_total) out = (Ok acc', out') ->
  exists r,
    forall rs g,
      sale_record str price_map sale (rs, g) out
      = (Ok (rs ++ [r], (g + total r)%float), out').
Proof.
  unfold sale_record. intros H.
  apply bind_Ok in H as (sid & o1 & H1 & H). apply lift_Ok in H1 as [H1 ->].
  apply bind_Ok in H as (cust & o2 & H2 & H). apply lift_Ok in H2 as [H2 ->].
  apply bind_Ok in H as (items & o3 & H3 & H). apply lift_Ok in H3 as [H3 ->].
  apply bind_Ok in H as (its & o4 & H4 & H). apply lift_Ok in H4 as [H4 ->].
  apply bind_Ok in H as (tot & o5 & H5 & H).
  unfold ret in H. injection H as _ <-.
  exists {| sale_id := sid; customer := cust; total := tot |}.
  intros rs g.
  rewrite (bind_lift_Ok _ _ _ _ H1), (bind_lift_Ok _ _ _ _ H2),
          (bind_lift_Ok _ _ _ _ H3), (bind_lift_Ok _ _ _ _ H4).
  unfold bind. rewrite H5. reflexivity.
Qed.

Lemma sale_records_any_start price_map sales : forall results grand_total out acc' out',
  for_each (sale_record str price_map) sales (results, grand_total) out
    = (Ok acc', out') ->
  exists new,
    forall rs g,
      for_each (sale_record str price_map) sales (rs, g) out
      = (Ok (rs ++ new, add_totals g new), out').
Proof.
  induction sales as [|sale sales IH]; intros rs0 g0 out acc' out' H;
    cbn [for_each] in H.
  - injection H as _ <-. exists []. intros rs g. cbn [for_each].
    rewrite app_nil_r. reflexivity.
  - apply bind_Ok in H as ([rs1 g1] & out1 & H1 & H2).
    apply sale_record_any_start in H1 as (r & Hr).
    apply IH in H2 as (new & Hnew).
    exists (r :: new). intros rs g. cbn [for_each]. unfold bind.
    rewrite Hr, Hnew, <- app_assoc. reflexivity.
Qed.

(** X6: the results of two lists of sales processed one after the other
    are the results of the concatenated list; its grand total is the
    first grand total with the totals of the second results added to it
    one by one. *)
Theorem compute_sales_of_concatenation first second price_map
    out results1 total1 out1 results2 total2 out2 :
  compute_sales str first price_map out = (Ok (results1, total1), out1) ->
  compute_sales str second price_map out1 = (Ok (results2, total2), out2) ->
  compute_sales str (first ++ second) price_map out
  = (Ok (results1 ++ results2, add_totals total1 results2), out2).
Proof.
  unfold compute_sales. intros H1 H2.
  rewrite for_each_app, H1.
  destruct (sale_records_any_start _ _ _ _ _ _ _ H2) as (new & Hnew).
  pose proof (Hnew [] 0%float) as H0. rewrite H2 in H0.
  injection H0 as -> _. rewrite Hnew. reflexivity.
Qed.

(** *** Totals are never below zero *)

Lemma not_below_zero_spec x : not_below_zero x = sf_not_below_zero (Prim2SF x).
Proof.
  unfold not_below_zero. rewrite ltb_spec.
  replace (Prim2SF 0) with (S754_zero false) by reflexivity.
  unfold SFltb, SFcompare.
  destruct (Prim2SF x) as [s|s| |s m e]; try destruct s; reflexivity.
Qed.

Lemma binary_round_aux_sign mx ex lx :
  sf_not_below_zero (binary_round_aux prec emax false mx ex lx) = true.
Proof.
  unfold binary_round_aux.
  destruct (shr_fexp prec emax mx ex lx) as [mrs' e'].
  destruct (shr_fexp prec emax _ e' loc_Exact) as [mrs'' e''].
  destruct (shr_m mrs''); [reflexivity | | reflexivity].
  destruct (e'' <=? emax - prec); reflexivity.
Qed.

Lemma binary_round_sign m e :
  sf_not_below_zero (binary_round prec emax false m e) = true.
Proof.
  unfold binary_round. destruct (shl_align m e _) as [mz ez].
  apply binary_round_aux_sign.
Qed.

Lemma binary_normalize_sign z e :
  0 <= z -> sf_not_below_zero (binary_normalize prec emax z e false) = true.
Proof.
  intros Hz. destruct z as [|p|p]; cbn [binary_normalize].
  - reflexivity.
  - apply binary_round_sign.
  - lia.
Qed.

Lemma SFmul_sign a b :
  sf_not_below_zero a = true -> sf_not_below_zero b = true ->
  sf_not_below_zero (SFmul prec emax a b) = true.
Proof.
  destruct a as [sa|sa| |sa ma ea]; destruct b as [sb|sb| |sb mb eb];
    try destruct sa; try destruct sb; try discriminate; intros _ _;
    try reflexivity.
  apply binary_round_aux_sign.
Qed.

Lemma SFadd_sign a b :
  sf_not_below_zero a = true -> sf_not_below_zero b = true ->
  sf_not_below_zero (SFadd prec emax a b) = true.
Proof.
  destruct a as [sa|sa| |sa ma ea]; destruct b as [sb|sb| |sb mb eb];
    try destruct sa; try destruct sb; try discriminate; intros _ _;
    try reflexivity.
  cbn [SFadd cond_Zopp]. apply binary_normalize_sign. lia.
Qed.

Lemma mul_not_below_zero x y :
  not_below_zero x = true -> not_below_zero y = true ->
  not_below_zero (x * y)%float = true.
Proof.
  rewrite !not_below_zero_spec, mul_spec. apply SFmul_sign.
Qed.

Lemma add_not_below_zero x y :
  not_below_zero x = true -> not_below_zero y = true ->
  not_below_zero (x + y)%float = true.
Proof.
  rewrite !not_below_zero_spec, add_spec. apply SFadd_sign.
Qed.

Lemma SF2Prim_sign s :
  sf_not_below_zero s = true -> sf_not_below_zero (Prim2SF (SF2Prim s)) = true.
Proof.
  destruct s as [[]|[]| |[] m e]; try discriminate; intros _; try reflexivity.
  cbn [SF2Prim]. unfold Z.ldexp.
  rewrite ldshiftexp_spec, of_uint63_spec.
  pose proof (binary_normalize_sign
                (Uint63Axioms.to_Z (Uint63Axioms.of_Z (Z.pos m))) 0) as H.
  destruct (binary_normalize prec emax _ 0 false) as [s|s| |s m' e'];
    cbn [SFldexp]; try (apply H; apply Uint63.to_Z_bounded).
  assert (Hs : sf_not_below_zero (S754_finite s m' e') = true)
    by (apply H; apply Uint63.to_Z_bounded).
  destruct s; [discriminate Hs|]. apply binary_round_sign.
Qed.

Lemma float_of_int_not_below_zero z f :
  0 <= z -> float_of_int z = Ok f -> not_below_zero f = true.
Proof.
  unfold float_of_int. intros Hz H.
  destruct (float_limit <=? Z.abs z); [discriminate H|]. injection H as <-.
  rewrite not_below_zero_spec. apply SF2Prim_sign, binary_normalize_sign, Hz.
Qed.

Lemma to_float_not_below_zero n f :
  lt_zero n = false -> to_float n = Ok f -> not_below_zero f = true.
Proof.
  destruct n as [b|z|x]; cbn [lt_zero to_float]; intros Hn H.
  - eapply float_of_int_not_below_zero; [|exact H]. destruct b; simpl; lia.
  - eapply float_of_int_not_below_zero; [|exact H]. apply Z.ltb_ge. exact Hn.
  - injection H as <-. unfold not_below_zero. rewrite Hn. reflexivity.
Qed.

Lemma le_zero_lt_zero q : le_zero q = false -> lt_zero q = false.
Proof.
  destruct q as [b|z|x]; cbn [le_zero lt_zero].
  - reflexivity.
  - intros H. apply Z.leb_gt in H. apply Z.ltb_ge. lia.
  - rewrite leb_spec, ltb_spec. unfold SFleb, SFltb.
    destruct (SFcompare (Prim2SF x) (Prim2SF 0)) as [[]|]; congruence.
Qed.

Lemma int_value_not_below_zero n z :
  lt_zero n = false -> int_value n = Some z -> 0 <= z.
Proof.
  destruct n as [b|x|x]; cbn [lt_zero int_value]; intros Hn H;
    try discriminate; injection H as <-.
  - destruct b; simpl; lia.
  - apply Z.ltb_ge. exact Hn.
Qed.

(** Adding the amount of an item whose price is not below zero and whose
    quantity is not [<= 0] keeps the running total from going below
    zero. *)
Lemma accumulate_not_below_zero t price q t' :
  not_below_zero t = true -> lt_zero price = false -> le_zero q = false ->
  accumulate t price q = Ok t' -> not_below_zero t' = true.
Proof.
  intros Ht Hp Hq. apply le_zero_lt_zero in Hq.
  unfold accumulate, py_mul, py_iadd.
  destruct (int_value price) as [x|] eqn:Ex; [destruct (int_value q) as [y|] eqn:Ey|].
  - cbv beta iota. cbn [to_float].
    destruct (float_of_int (x * y)) as [f|] eqn:Ef; [|discriminate].
    intros H. injection H as <-. apply add_not_below_zero; [exact Ht|].
    eapply float_of_int_not_below_zero; [|exact Ef].
    apply Z.mul_nonneg_nonneg;
      [eapply (int_value_not_below_zero price) | eapply (int_value_not_below_zero q)];
      eassumption.
  - destruct (to_float price) as [fp|] eqn:Ep; [|discriminate].
    destruct (to_float q) as [fq|] eqn:Eq; [|discriminate].
    intros H. injection H as <-.
    apply add_not_below_zero; [exact Ht|].
    apply mul_not_below_zero;
      [eapply (to_float_not_below_zero price) | eapply (to_float_not_below_zero q)];
      eassumption.
  - destruct (to_float price) as [fp|] eqn:Ep; [|discriminate].
    destruct (to_float q) as [fq|] eqn:Eq; [|discriminate].
    intros H. injection H as <-.
    apply add_not_below_zero; [exact Ht|].
    apply mul_not_below_zero;
      [eapply (to_float_not_below_zero price) | eapply (to_float_not_below_zero q)];
      eassumption.
Qed.

Lemma sale_item_not_below_zero price_map sid item t out t' out' :
  (forall k n, price_map !! k = Some n -> lt_zero n = false) ->
  sale_item str price_map sid item t out = (Ok t', out') ->
  not_below_zero t = true -> not_below_zero t' = true.
Proof.
  intros Hpm H Ht.
  apply sale_item_cases in H
    as [(_ & product & k & price & quantity & q & _ & _ & Hprice & _ & _ & Hq & Hacc)
       | (-> & _)]; [|exact Ht].
  eapply accumulate_not_below_zero; try eassumption.
  eapply Hpm. exact Hprice.
Qed.

Lemma sale_record_not_below_zero price_map sale results grand_total out acc' out' :
  (forall k n, price_map !! k = Some n -> lt_zero n = false) ->
  sale_record str price_map sale (results, grand_total) out = (Ok acc', out') ->
  exists r, acc' = (results ++ [r], (grand_total + total r)%float) /\
            not_below_zero (total r) = true.
Proof.
  intros Hpm. unfold sale_record. intros H.
  apply bind_Ok in H as (sid & o1 & H1 & H). apply lift_Ok in H1 as [H1 ->].
  apply bind_Ok in H as (cust & o2 & H2 & H). apply lift_Ok in H2 as [H2 ->].
  apply bind_Ok in H as (items & o3 & H3 & H). apply lift_Ok in H3 as [H3 ->].
  apply bind_Ok in H as (its & o4 & H4 & H). apply lift_Ok in H4 as [H4 ->].
  apply bind_Ok in H as (tot & o5 & H5 & H).
  unfold ret in H. injection H as <- _.
  exists {| sale_id := sid; customer := cust; total := tot |}.
  split; [reflexivity|]. cbn [total].
  eapply (for_each_invariant (sale_item str price_map sid)
            (fun t => not_below_zero t = true)); [|exact H5|reflexivity].
  intros x s o s' o' Hx Hs. eapply sale_item_not_below_zero; eassumption.
Qed.

Lemma compute_sales_not_below_zero price_map sales out results grand_total out' :
  (forall k n, price_map !! k = Some n -> lt_zero n = false) ->
  compute_sales str sales price_map out = (Ok (results, grand_total), out') ->
  forallb (fun r => not_below_zero (total r)) results = true /\
  not_below_zero grand_total = true.
Proof.
  intros Hpm H. unfold compute_sales in H.
  apply (for_each_invariant (sale_record str price_map)
           (fun acc => forallb (fun r => not_below_zero (total r)) (fst acc) = true /\
                       not_below_zero (snd acc) = true)) in H.
  - exact H.
  - intros sale [rs g] o acc' o' Hstep [Hrs Hg]. cbn [fst snd] in Hrs, Hg.
    apply (sale_record_not_below_zero _ _ _ _ _ _ _ Hpm) in Hstep as (r & -> & Hr).
    cbn [fst snd]. split.
    + rewrite forallb_app, Hrs. cbn [forallb]. rewrite Hr. reflexivity.
    + apply add_not_below_zero; assumption.
  - split; reflexivity.
Qed.

(** X7: no total and no grand total that [build_price_map] followed by
    [compute_sales] returns is below zero: each is zero, positive or NaN,
    whatever the files hold, since no stored price is below zero and no
    counted quantity is zero or less. *)
Theorem totals_are_never_below_zero catalogue sales out results grand_total out' :
  pipeline str catalogue sales out = (Ok (results, grand_total), out') ->
  forallb (fun r => not_below_zero (total r)) results = true /\
  not_below_zero grand_total = true.
Proof.
  unfold pipeline. intros H.
  apply bind_Ok in H as (pm & out1 & Hpm & H).
  eapply compute_sales_not_below_zero; [|exact H].
  intros k n Hk. rewrite (build_price_map_lookup str _ _ _ _ Hpm) in Hk.
  apply (last_valid_price_Some str) in Hk as (i & t & _ & Hv & _).
  eapply valid_entry_not_negative; exact Hv.
Qed.

(** *** Nothing to add *)

Lemma sale_item_empty_map sid item t out t' out' :
  sale_item str ∅ sid item t out = (Ok t', out') -> t' = t.
Proof.
  intros H.
  apply sale_item_cases in H
    as [(_ & product & k & price & quantity & q & _ & _ & Hprice & _) | (-> & _)];
    [|reflexivity].
  rewrite lookup_empty in Hprice. discriminate Hprice.
Qed.

Lemma compute_sales_empty_map sales out results grand_total out' :
  compute_sales str sales ∅ out = (Ok (results, grand_total), out') ->
  Forall (fun r => total r = 0%float) results /\ grand_total = 0%float.
Proof.
  unfold compute_sales. intros H.
  apply (for_each_invariant (sale_record str ∅)
           (fun acc => Forall (fun r => total r = 0%float) (fst acc) /\
                       snd acc = 0%float)) in H.
  - exact H.
  - intros sale [rs g] o acc' o' Hstep [Hrs Hg]. cbn [fst snd] in Hrs, Hg.
    unfold sale_record in Hstep.
    apply bind_Ok in Hstep as (sid & o1 & H1 & Hstep). apply lift_Ok in H1 as [H1 ->].
    apply bind_Ok in Hstep as (cust & o2 & H2 & Hstep). apply lift_Ok in H2 as [H2 ->].
    apply bind_Ok in Hstep as (items & o3 & H3 & Hstep). apply lift_Ok in H3 as [H3 ->].
    apply bind_Ok in Hstep as (its & o4 & H4 & Hstep). apply lift_Ok in H4 as [H4 ->].
    apply bind_Ok in Hstep as (tot & o5 & H5 & Hstep).
    unfold ret in Hstep. injection Hstep as <- _. cbn [fst snd].
    assert (Htot : tot = 0%float).
    { eapply (for_each_invariant (sale_item str ∅ sid) (fun t => t = 0%float));
        [|exact H5|reflexivity].
      intros x s o6 s' o7 Hx ->. eapply sale_item_empty_map. exact Hx. }
    subst tot g. split; [|reflexivity].
    apply Forall_app. split; [exact Hrs|]. constructor; [reflexivity | constructor].
  - split; [constructor | reflexivity].
Qed.

(** X8: when no entry of the catalogue is valid, every total and the
    grand total that [build_price_map] followed by [compute_sales]
    returns is [0.0], whatever the sales. *)
Theorem no_valid_entry_no_total catalogue sales out results grand_total out' :
  (forall item, In item catalogue -> valid_entry item = None) ->
  pipeline str catalogue sales out = (Ok (results, grand_total), out') ->
  Forall (fun r => total r = 0%float) results /\ grand_total = 0%float.
Proof.
  intros Hnone H. unfold pipeline in H.
  apply bind_Ok in H as (pm & out1 & Hpm & H).
  assert (Hempty : pm = ∅).
  { apply map_eq. intros k.
    rewrite (build_price_map_lookup str _ _ _ _ Hpm), lookup_empty.
    apply (last_valid_price_None str). intros item title n Hin Hv.
    rewrite (Hnone item Hin) in Hv. discriminate Hv. }
  subst pm. eapply compute_sales_empty_map. exact H.
Qed.

(** *** Lines of the report *)

Lemma count_newlines_append a b :
  count_newlines (a +:+ b) = (count_newlines a + count_newlines b)%nat.
Proof.
  induction a as [|c a IH]; [reflexivity|].
  rewrite append_cons. cbn [count_newlines]. rewrite IH. lia.
Qed.

Lemma digits_no_newline s : digits s = true -> count_newlines s = 0%nat.
Proof.
  unfold digits. induction s as [|c s IH]; [reflexivity|].
  cbn [list_ascii_of_string forallb count_newlines].
  intros H. apply andb_true_iff in H as [Hc Hs]. rewrite (IH Hs).
  destruct (Ascii.eqb_spec c (ascii_of_nat 10)) as [->|_]; [discriminate Hc | reflexivity].
Qed.

Lemma plain_chars_no_newline l :
  forallb plain_char l = true -> count_newlines (string_of_list_ascii l) = 0%nat.
Proof.
  induction l as [|c l IH]; [reflexivity|].
  cbn [forallb string_of_list_ascii count_newlines]. intros H.
  apply andb_true_iff in H as [Hc Hl]. rewrite (IH Hl).
  unfold plain_char in Hc. destruct (Ascii.eqb c (ascii_of_nat 10)); [discriminate Hc|].
  reflexivity.
Qed.

Lemma group_thousands_plain n : forall l,
  (length l <= n)%nat -> forallb plain_char l = true ->
  forallb plain_char (group_thousands l) = true.
Proof.
  induction n as [|n IH]; intros l Hlen Hl.
  - destruct l; [reflexivity | simpl in Hlen; lia].
  - destruct l as [|a [|b [|c [|d rest]]]]; try exact Hl.
    change (group_thousands (a :: b :: c :: d :: rest))
      with (a :: b :: c :: ","%char :: group_thousands (d :: rest)).
    cbn [forallb] in Hl |- *.
    apply andb_true_iff in Hl as [Ha Hl]. apply andb_true_iff in Hl as [Hb Hl].
    apply andb_true_iff in Hl as [Hc Hl].
    rewrite Ha, Hb, Hc. cbn [andb].
    change (plain_char ","%char) with true. cbn [andb].
    apply IH; [simpl in *; lia | exact Hl].
Qed.

Lemma digits_plain s :
  digits s = true -> forallb plain_char (list_ascii_of_string s) = true.
Proof.
  unfold digits. intros H. rewrite forallb_forall in *. intros c Hc.
  specialize (H c Hc). unfold plain_char.
  destruct (Ascii.eqb_spec c (ascii_of_nat 10)) as [->|_]; [discriminate H | reflexivity].
Qed.

Lemma thousands_no_newline w :
  digits w = true -> count_newlines (thousands w) = 0%nat.
Proof.
  intros H. unfold thousands. apply plain_chars_no_newline.
  apply digits_plain in H.
  assert (Hrev : forall l, forallb plain_char l = true ->
                           forallb plain_char (rev l) = true).
  { intros l Hl. rewrite forallb_forall in *. intros c Hc.
    apply Hl. apply in_rev. exact Hc. }
  apply Hrev.
  apply (group_thousands_plain (length (rev (list_ascii_of_string w)))); [lia|].
  apply Hrev. exact H.
Qed.

Lemma fixed_point_no_newline comma p n :
  count_newlines (fixed_point comma p n) = 0%nat.
Proof.
  unfold fixed_point. rewrite count_newlines_append.
  destruct (decimal_digits (n / 10 ^ Z.of_nat p)) as [Hd _].
  assert (Hwhole : count_newlines
                     (if comma then thousands (decimal (n / 10 ^ Z.of_nat p))
                      else decimal (n / 10 ^ Z.of_nat p)) = 0%nat).
  { destruct comma; [apply thousands_no_newline | apply digits_no_newline]; exact Hd. }
  rewrite Hwhole. destruct p as [|p]; [reflexivity|].
  rewrite count_newlines_append, (digits_no_newline _ (low_digits_digits (S p) n)).
  reflexivity.
Qed.

(** A formatted number is one line. *)
Lemma format_f_no_newline comma p x : count_newlines (format_f comma p x) = 0%nat.
Proof.
  unfold format_f.
  destruct (Prim2SF x) as [s|s| |s m e];
    try (rewrite count_newlines_append, fixed_point_no_newline);
    try destruct s; reflexivity.
Qed.

Lemma count_newlines_join lines :
  lines <> [] ->
  (forall line, In line lines -> count_newlines line = 0%nat) ->
  count_newlines (join newline lines) = (length lines - 1)%nat.
Proof.
  induction lines as [|x rest IH]; intros Hne Hall; [contradiction|].
  destruct rest as [|y rest].
  - cbn [join length]. apply Hall. left. reflexivity.
  - change (join newline (x :: y :: rest))
      with (x +:+ newline +:+ join newline (y :: rest)).
    rewrite !count_newlines_append, IH; [|discriminate|].
    + rewrite (Hall x) by (left; reflexivity). cbn [length].
      change (count_newlines newline) with 1%nat. lia.
    + intros line Hin. apply Hall. right. exact Hin.
Qed.

Lemma result_blocks_length results :
  length (flat_map (result_block str) results) = (4 * length results)%nat.
Proof.
  induction results as [|r results IH]; [reflexivity|].
  cbn [flat_map]. rewrite length_app, IH. cbn [result_block length]. lia.
Qed.

(** X9: when the ids and the customers of the results are written
    without a newline, the report is [6 + 4 * n] lines for [n] results:
    it has [5 + 4 * n] newlines and does not end with one. *)
Theorem report_has_four_lines_per_result results grand_total elapsed_time :
  (forall r, In r results ->
     count_newlines (str (sale_id r)) = 0%nat /\
     count_newlines (str (customer r)) = 0%nat) ->
  count_newlines (format_output str results grand_total elapsed_time)
  = (5 + 4 * length results)%nat.
Proof.
  intros Hplain. rewrite format_output_lines.
  rewrite count_newlines_join.
  - unfold report_body. rewrite !length_app, result_blocks_length.
    cbn [length]. lia.
  - unfold report_body. discriminate.
  - intros line Hin. unfold report_body in Hin.
    repeat (apply in_app_or in Hin as [Hin|Hin]).
    + repeat (destruct Hin as [<-|Hin]; [reflexivity|]). destruct Hin.
    + apply in_flat_map in Hin as (r & Hr & Hin).
      destruct (Hplain r Hr) as [Hid Hcust]. unfold result_block in Hin.
      destruct Hin as [<-|[<-|[<-|[<-|[]]]]];
        rewrite ?count_newlines_append, ?Hid, ?Hcust, ?format_f_no_newline;
        reflexivity.
    + destruct Hin as [<-|[<-|[]]];
        rewrite ?count_newlines_append, ?format_f_no_newline; reflexivity.
    + destruct Hin as [<-|[]]. unfold time_line.
      rewrite !count_newlines_append, format_f_no_newline. reflexivity.
Qed.

(** *** The command line *)

Lemma load_and_compute_lists catalogue sales out :
  load_and_compute str (PList catalogue) (PList sales) out
  = pipeline str catalogue sales out.
Proof.
  unfold load_and_compute, pipeline.
  rewrite (bind_lift_Ok (py_iter (PList catalogue)) _ catalogue) by reflexivity.
  unfold bind. destruct (build_price_map str catalogue out) as [[pm|e] out1];
    reflexivity.
Qed.

(** X10: [main] writes [SalesResults.txt] exactly when it returns, and
    what it writes is the report it has just printed: the report and the
    line saying it was saved are the last two things printed. *)
Theorem results_file_is_the_printed_report
    read_json start_time end_time printable writable argv :
  match saved (snd (main str read_json start_time end_time printable writable argv)) with
  | Some report =>
      fst (main str read_json start_time end_time printable writable argv) = Returns /\
      exists diagnostics,
        stdout (snd (main str read_json start_time end_time printable writable argv))
        = diagnostics ++ [report; saved_line]
  | None => fst (main str read_json start_time end_time printable writable argv) <> Returns
  end.
Proof.
  unfold main, exit_with.
  destruct (length argv <? 3)%nat; [discriminate|].
  destruct (read_json (nth 1 argv "")); try discriminate;
    try (destruct (printable _); discriminate).
  destruct (read_json (nth 2 argv "")); try discriminate;
    try (destruct (printable _); discriminate).
  destruct (load_and_compute str content content0 []) as [outcome out].
  destruct (refused printable out); [discriminate|].
  destruct outcome as [[results g]|e]; [|discriminate].
  destruct (printable _); [|discriminate].
  destruct (writable _); [|discriminate].
  cbn [fst snd saved stdout]. split; [reflexivity|].
  exists out. rewrite <- app_assoc. reflexivity.
Qed.

(** X11: [main] exits with a status only through [sys.exit(1)]: the
    status is 1, exactly one line has been printed, the usage line or a
    line starting with [ERROR reading ], and nothing has been written. *)
Theorem exit_status_is_one read_json start_time end_time printable writable argv code :
  fst (main str read_json start_time end_time printable writable argv) = SystemExit code ->
  code = 1 /\
  saved (snd (main str read_json start_time end_time printable writable argv)) = None /\
  exists line,
    stdout (snd (main str read_json start_time end_time printable writable argv)) = [line] /\
    (line = usage_line \/ String.prefix "ERROR reading " line = true).
Proof.
  unfold main, exit_with.
  destruct (length argv <? 3)%nat.
  { intros H. injection H as <-. repeat split. eauto. }
  destruct (read_json (nth 1 argv "")); try discriminate;
    try (destruct (printable _); [|discriminate];
         intros H; injection H as <-; repeat split; eexists; split;
         [reflexivity | right; reflexivity]).
  destruct (read_json (nth 2 argv "")); try discriminate;
    try (destruct (printable _); [|discriminate];
         intros H; injection H as <-; repeat split; eexists; split;
         [reflexivity | right; reflexivity]).
  destruct (load_and_compute str content content0 []) as [outcome out].
  destruct (refused printable out); [discriminate|].
  destruct outcome as [[results g]|e]; [|discriminate].
  destruct (printable _); [|discriminate].
  destruct (writable _); discriminate.
Qed.

(** X12: [main] reads nothing when an argument is missing, and reads the
    sales file only once the catalogue file has been loaded. *)
Theorem sales_file_is_read_after_the_catalogue
    read_json start_time end_time printable writable argv :
  opened (snd (main str read_json start_time end_time printable writable argv)) =
  if (length argv <? 3)%nat then []
  else match read_json (nth 1 argv "") with
       | Loaded _ => [nth 1 argv ""; nth 2 argv ""]
       | _ => [nth 1 argv ""]
       end.
Proof.
  unfold main, exit_with.
  destruct (length argv <? 3)%nat; [reflexivity|].
  destruct (read_json (nth 1 argv "")); try reflexivity;
    try (destruct (printable _); reflexivity).
  destruct (read_json (nth 2 argv "")); try reflexivity;
    try (destruct (printable _); reflexivity).
  destruct (load_and_compute str content content0 []) as [outcome out].
  destruct (refused printable out); [reflexivity|].
  destruct outcome as [[results g]|e]; [|reflexivity].
  destruct (printable _); [|reflexivity].
  destruct (writable _); reflexivity.
Qed.

Lemma refused_when_all_printable (printable : string -> bool) lines :
  forallb printable lines = true -> refused printable lines = None.
Proof.
  induction lines as [|line rest IH]; cbn [forallb refused]; [reflexivity|].
  intros H. apply andb_prop in H as [-> H]. rewrite (IH H). reflexivity.
Qed.

Lemma forallb_true_everywhere {A} (l : list A) : forallb (fun _ => true) l = true.
Proof. induction l as [|x l IH]; [reflexivity | exact IH]. Qed.

(** X13: given both paths, files that hold plain sequences (well-formed,
    titles and products hashable, integers within [2^511]), a standard
    output that takes the diagnostics of the pipeline and the report of
    its results, and a results file that takes that report, [main]
    returns: it prints the diagnostics of the pipeline, then that report,
    with the elapsed time [end_time - start_time], then the line saying
    it was saved, and the file holds that report. *)
Theorem main_returns_on_plain_files
    read_json start_time end_time printable writable argv catalogue sales :
  (3 <= length argv)%nat ->
  read_json (nth 1 argv "") = Loaded (PList catalogue) ->
  read_json (nth 2 argv "") = Loaded (PList sales) ->
  forallb plain_entry catalogue = true ->
  forallb plain_sale sales = true ->
  (forall results grand_total diagnostics,
      pipeline str catalogue sales [] = (Ok (results, grand_total), diagnostics) ->
      forallb printable diagnostics = true /\
      printable (format_output str results grand_total
                   (end_time - start_time)%float) = true /\
      writable (format_output str results grand_total
                  (end_time - start_time)%float) = true) ->
  exists results grand_total diagnostics,
    pipeline str catalogue sales [] = (Ok (results, grand_total), diagnostics) /\
    main str read_json start_time end_time printable writable argv
    = (Returns,
       {| stdout := diagnostics
                    ++ [format_output str results grand_total
                          (end_time - start_time)%float;
                        saved_line];
          opened := [nth 1 argv ""; nth 2 argv ""];
          saved := Some (format_output str results grand_total
                           (end_time - start_time)%float) |}).
Proof.
  intros Hargv Hcat Hsales Hpc Hps Htakes.
  destruct (build_price_map_plain str catalogue [] Hpc) as (pm & out1 & Hpm & Hsmall).
  destruct (compute_sales_plain str pm sales [] 0%float out1 Hsmall Hps)
    as (results & g & out2 & Hrun & _).
  assert (Hpipe : pipeline str catalogue sales [] = (Ok (results, g), out2)).
  { unfold pipeline, bind. rewrite Hpm. exact Hrun. }
  destruct (Htakes _ _ _ Hpipe) as (Hlines & Hprint & Hwrite).
  exists results, g, out2. split; [exact Hpipe|].
  unfold main.
  assert (Hlen : (length argv <? 3)%nat = false) by (apply Nat.ltb_ge; exact Hargv).
  rewrite Hlen, Hcat, Hsales, load_and_compute_lists, Hpipe.
  cbv zeta. rewrite (refused_when_all_printable _ _ Hlines).
  cbv beta iota. rewrite Hprint, Hwrite, <- app_assoc. reflexivity.
Qed.

(** X14: when both files load and the catalogue file holds valid JSON
    that cannot be iterated over ([null], a boolean or a number), [main]
    ends with an uncaught [TypeError], after reading both files and before
    printing anything; no report is printed or written. *)
Theorem scalar_catalogue_is_a_TypeError
    read_json start_time end_time printable writable argv catalogue sales :
  (3 <= length argv)%nat ->
  read_json (nth 1 argv "") = Loaded catalogue ->
  read_json (nth 2 argv "") = Loaded sales ->
  py_iter catalogue = Raise TypeError ->
  main str read_json start_time end_time printable writable argv
  = (Uncaught TypeError,
     {| stdout := []; opened := [nth 1 argv ""; nth 2 argv ""]; saved := None |}).
Proof.
  intros Hargv Hcat Hsales Hiter. unfold main.
  assert (Hlen : (length argv <? 3)%nat = false) by (apply Nat.ltb_ge; exact Hargv).
  rewrite Hlen, Hcat, Hsales. unfold load_and_compute, bind, lift.
  rewrite Hiter. reflexivity.
Qed.

(** *** Items within [compute_sales] *)

Lemma item_amount_Some price_map item price q :
  item_amount price_map item = Some (price, q) ->
  exists product quantity k,
    py_get item "Product" PNone = Ok product /\
    py_get item "Quantity" (PInt 0) = Ok quantity /\
    key_of product = Ok k /\ price_map !! k = Some price /\
    as_number quantity = Some q /\ le_zero q = false.
Proof.
  unfold item_amount.
  destruct (py_get item "Product" PNone) as [product|] eqn:Hp; [|discriminate].
  destruct (py_get item "Quantity" (PInt 0)) as [quantity|] eqn:Hq; [|discriminate].
  destruct (key_of product) as [k|] eqn:Hk; [|discriminate].
  destruct (price_map !! k) as [p|] eqn:Hprice; [|discriminate].
  destruct (as_number quantity) as [q'|] eqn:Hn; [|discriminate].
  destruct (le_zero q') eqn:Hle; [discriminate|].
  intros H. injection H as <- <-.
  exists product, quantity, k. repeat split; first [reflexivity | assumption].
Qed.

Lemma item_amount_counted price_map item product quantity k price q :
  py_get item "Product" PNone = Ok product ->
  py_get item "Quantity" (PInt 0) = Ok quantity ->
  key_of product = Ok k -> price_map !! k = Some price ->
  as_number quantity = Some q -> le_zero q = false ->
  item_amount price_map item = Some (price, q).
Proof.
  intros Hp Hq Hk Hprice Hn Hle. unfold item_amount.
  rewrite Hp, Hq, Hk, Hprice, Hn, Hle. reflexivity.
Qed.

(** What a pass of the loop body over an item does, by what the item
    adds. *)
Lemma sale_item_amount price_map sid item t out t' out' :
  sale_item str price_map sid item t out = (Ok t', out') ->
  match item_amount price_map item with
  | Some (price, q) => accumulate t price q = Ok t' /\ out' = out
  | None => t' = t /\ exists line, out' = out ++ [line]
  end.
Proof.
  intros H. destruct (item_amount price_map item) as [[price q]|] eqn:E.
  - apply item_amount_Some in E
      as (product & quantity & k & Hp & Hq & Hk & Hprice & Hn & Hle).
    rewrite (sale_item_valid str price_map sid item product quantity q k price)
      in H by assumption.
    injection H as -> ->. split; reflexivity.
  - apply sale_item_cases in H
      as [(_ & product & k & price & quantity & q & Hp & Hk & Hprice & Hq & Hn & Hle & _)
         | (-> & line & -> & _)].
    + rewrite (item_amount_counted _ _ _ _ _ _ _ Hp Hq Hk Hprice Hn Hle) in E.
      discriminate E.
    + split; [reflexivity | eauto].
Qed.

(** The loop over the items of a sale computes the total of section
    4.2. *)
Lemma items_loop_total price_map sid items : forall t out t' out',
  for_each (sale_item str price_map sid) items t out = (Ok t', out') ->
  counted_total price_map items t = Ok t'.
Proof.
  induction items as [|item rest IH]; intros t out t' out' H; cbn [for_each] in H.
  - injection H as <- _. reflexivity.
  - apply bind_Ok in H as (t1 & out1 & H1 & H2).
    apply sale_item_amount in H1. cbn [counted_total].
    destruct (item_amount price_map item) as [[price q]|].
    + destruct H1 as [-> _]. eapply IH. exact H2.
    + destruct H1 as [-> _]. eapply IH. exact H2.
Qed.

Lemma counted_total_app price_map l1 l2 : forall t,
  counted_total price_map (l1 ++ l2) t =
  match counted_total price_map l1 t with
  | Ok t1 => counted_total price_map l2 t1
  | Raise e => Raise e
  end.
Proof.
  induction l1 as [|item l1 IH]; intros t; cbn [app counted_total]; [reflexivity|].
  destruct (item_amount price_map item) as [[price q]|]; [|apply IH].
  destruct (accumulate t price q); [apply IH | reflexivity].
Qed.

Lemma counted_total_without price_map before item after t :
  item_amount price_map item = None ->
  counted_total price_map (before ++ item :: after) t
  = counted_total price_map (before ++ after) t.
Proof.
  intros H. rewrite !counted_total_app. cbn [counted_total]. rewrite H. reflexivity.
Qed.

Lemma output_grows {A} (m : M A) out r out' :
  appends_only m -> m out = (r, out') -> exists added, out' = out ++ added.
Proof.
  intros Hm H. rewrite (Hm out) in H. injection H as _ <-. eauto.
Qed.

Lemma items_loop_output price_map sid items t out r out' :
  for_each (sale_item str price_map sid) items t out = (r, out') ->
  exists added, out' = out ++ added.
Proof.
  apply output_grows, for_each_appends. intros x s. apply sale_item_appends.
Qed.

(** A line that an item always prints is among the lines the loop
    prints. *)
Lemma skipped_item_line price_map sid item line before after t out t' out' :
  (forall t o, sale_item str price_map sid item t o = (Ok t, o ++ [line])) ->
  for_each (sale_item str price_map sid) (before ++ item :: after) t out
    = (Ok t', out') ->
  exists a b, out' = out ++ a ++ line :: b.
Proof.
  intros Hskip H. rewrite for_each_app in H.
  destruct (for_each (sale_item str price_map sid) before t out)
    as [[t1|e] o1] eqn:Hbefore; [|discriminate H].
  apply items_loop_output in Hbefore as [a ->].
  cbn [for_each] in H. unfold bind at 1 in H. rewrite Hskip in H.
  apply items_loop_output in H as [b ->].
  exists a, b. rewrite <- !app_assoc. reflexivity.
Qed.

Lemma sale_record_appends price_map sale acc :
  appends_only (sale_record str price_map sale acc).
Proof.
  destruct acc as [results grand_total]. unfold sale_record.
  repeat (apply bind_appends; [apply lift_appends | intros ?]).
  apply bind_appends; [|intros ?; apply ret_appends].
  apply for_each_appends. intros x s. apply sale_item_appends.
Qed.

Lemma sale_records_output price_map sales acc out r out' :
  for_each (sale_record str price_map) sales acc out = (r, out') ->
  exists added, out' = out ++ added.
Proof.
  apply output_grows, for_each_appends. intros x s. apply sale_record_appends.
Qed.

(** What [compute_sales] does at one sale record of the list, when it
    returns: the record's result is at the record's position, its total is
    what the loop over the record's items gives from [0.0], and the lines
    of that loop are among the lines printed. *)
Lemma compute_sales_at pre sale post price_map out results grand_total out' :
  compute_sales str (pre ++ sale :: post) price_map out
    = (Ok (results, grand_total), out') ->
  exists sid cust items_value items t a1 a2 a3,
    py_get sale "SALE_ID" (PStr "UNKNOWN") = Ok sid /\
    py_get sale "Customer" (PStr "UNKNOWN") = Ok cust /\
    py_get sale "Items" (PList []) = Ok items_value /\
    py_iter items_value = Ok items /\
    for_each (sale_item str price_map sid) items 0%float (out ++ a1)
      = (Ok t, (out ++ a1) ++ a2) /\
    nth_error results (length pre)
      = Some {| sale_id := sid; customer := cust; total := t |} /\
    out' = ((out ++ a1) ++ a2) ++ a3 /\
    length results = length (pre ++ sale :: post).
Proof.
  unfold compute_sales. intros H. rewrite for_each_app in H.
  destruct (for_each (sale_record str price_map) pre ([], 0%float) out)
    as [[[rs1 g1]|e] out1] eqn:Hpre; [|discriminate H].
  cbn [for_each] in H. apply bind_Ok in H as ([rs2 g2] & out2 & Hrec & Hpost).
  pose proof (sale_records_output _ _ _ _ _ _ Hpre) as [a1 ->].
  pose proof (sale_records_output _ _ _ _ _ _ Hpost) as [a3 ->].
  apply (sale_records_Ok str) in Hpre as (new1 & Hnew1 & Hall1).
  apply (sale_records_Ok str) in Hpost as (new2 & Hnew2 & Hall2).
  cbn [fst app] in Hnew1, Hnew2. subst rs1 results.
  unfold sale_record in Hrec.
  apply bind_Ok in Hrec as (sid & o1 & H1 & Hrec). apply lift_Ok in H1 as [H1 ->].
  apply bind_Ok in Hrec as (cust & o2 & H2 & Hrec). apply lift_Ok in H2 as [H2 ->].
  apply bind_Ok in Hrec as (iv & o3 & H3 & Hrec). apply lift_Ok in H3 as [H3 ->].
  apply bind_Ok in Hrec as (its & o4 & H4 & Hrec). apply lift_Ok in H4 as [H4 ->].
  apply bind_Ok in Hrec as (tot & o5 & H5 & Hrec).
  unfold ret in Hrec. injection Hrec as <- _ <-.
  pose proof (items_loop_output _ _ _ _ _ _ _ H5) as [a2 ->].
  exists sid, cust, iv, its, tot, a1, a2, a3.
  pose proof (Forall2_length _ _ _ Hall1) as L1.
  pose proof (Forall2_length _ _ _ Hall2) as L2.
  repeat split; try assumption.
  - rewrite <- app_assoc, nth_error_app2 by (rewrite L1; apply Nat.le_refl).
    rewrite L1, Nat.sub_diag. reflexivity.
  - repeat (rewrite length_app; cbn [length]). lia.
Qed.

(** [compute_sales] returns on plain sale records and small prices. *)
Lemma compute_sales_returns sales price_map out :
  small_prices price_map -> forallb plain_sale sales = true ->
  exists results grand_total out',
    compute_sales str sales price_map out = (Ok (results, grand_total), out').
Proof.
  intros Hsmall Hplain.
  destruct (compute_sales_plain str price_map sales [] 0%float out Hsmall Hplain)
    as (new & g & out' & H & _).
  exists new, g, out'. exact H.
Qed.

(** C4 (amended): take a sale record of the list and an item of it whose
    product is hashable and is not a key of the price map.
    [compute_sales] returns when the sale records are plain and the
    prices small.  Whenever it returns, the record has its result at its
    position, with the total of the record's other items: the item adds
    nothing; the lines printed include the error line naming the product
    and the sale id; and there is one result per record, so processing
    went on.  A product none of whose catalogue entries is valid (a
    negative price, say) is not a key of the map [build_price_map]
    returns. *)
Theorem unknown_product_is_reported_and_left_out
    sales pre sale post sid before item after product k price_map out :
  sales = pre ++ sale :: post ->
  py_get sale "SALE_ID" (PStr "UNKNOWN") = Ok sid ->
  py_get sale "Items" (PList []) = Ok (PList (before ++ item :: after)) ->
  py_get item "Product" PNone = Ok product ->
  key_of product = Ok k -> price_map !! k = None ->
  (small_prices price_map -> forallb plain_sale sales = true ->
   exists results grand_total out',
     compute_sales str sales price_map out = (Ok (results, grand_total), out')) /\
  (forall results grand_total out',
     compute_sales str sales price_map out = (Ok (results, grand_total), out') ->
     exists r a b,
       nth_error results (length pre) = Some r /\ sale_id r = sid /\
       counted_total price_map (before ++ after) 0%float = Ok (total r) /\
       out' = out ++ a ++ unknown_product_error str product sid :: b /\
       length results = length sales) /\
  (forall catalogue o built o',
     build_price_map str catalogue o = (Ok built, o') ->
     (forall entry title n, In entry catalogue ->
        valid_entry entry = Some (title, n) -> key_of title <> Ok k) ->
     built !! k = None).
Proof.
  intros -> Hsid Hitems Hp Hk Hnone. split; [|split].
  - apply compute_sales_returns.
  - intros results grand_total out' H.
    apply compute_sales_at in H
      as (sid' & cust & iv & its & t & a1 & a2 & a3
          & Hsid' & _ & Hiv & Hits & Hloop & Hnth & -> & Hlen).
    rewrite Hsid in Hsid'. injection Hsid' as <-.
    rewrite Hitems in Hiv. injection Hiv as <-.
    cbn [py_iter] in Hits. injection Hits as <-.
    assert (Hc : dict_contains price_map product = Ok false).
    { unfold dict_contains. rewrite Hk, Hnone. reflexivity. }
    assert (Hamount : item_amount price_map item = None).
    { unfold item_amount. rewrite Hp.
      destruct (py_get item "Quantity" (PInt 0)); [|reflexivity].
      rewrite Hk, Hnone. reflexivity. }
    pose proof (items_loop_total _ _ _ _ _ _ _ Hloop) as Htotal.
    rewrite (counted_total_without _ _ _ _ _ Hamount) in Htotal.
    destruct (skipped_item_line price_map sid item
                (unknown_product_error str product sid) before after
                0%float (out ++ a1) t ((out ++ a1) ++ a2)) as (a & b & Hout).
    { intros t0 o. apply sale_item_unknown; assumption. }
    { exact Hloop. }
    eexists _, (a1 ++ a), (b ++ a3). split; [exact Hnth|].
    split; [reflexivity|]. split; [exact Htotal|]. split; [|exact Hlen].
    rewrite Hout, <- !app_assoc. reflexivity.
  - intros catalogue o built o' Hbuilt Hno.
    rewrite (build_price_map_lookup str _ _ _ _ Hbuilt k).
    apply (last_valid_price_None str). exact Hno.
Qed.

(** C5 (amended): take a sale record of the list and an item of it whose
    product is a key of the price map.  An absent quantity reads as [0].
    [compute_sales] returns when the sale records are plain and the
    prices small.  Whenever it returns, the record has its result at its
    position and there is one result per record.  If the quantity is not
    a number or is [<= 0], the total of the result is that of the
    record's other items and the warning line naming the product, the
    sale id and the quantity is among the lines printed.  If the quantity
    is a number [> 0], the total of the result is the total [t0] of the
    items before it, plus [price_map[product] * quantity] as a float,
    plus what the items after it add. *)
Theorem quantity_decides_what_is_added
    sales pre sale post sid before item after product quantity k price
    price_map out :
  sales = pre ++ sale :: post ->
  py_get sale "SALE_ID" (PStr "UNKNOWN") = Ok sid ->
  py_get sale "Items" (PList []) = Ok (PList (before ++ item :: after)) ->
  py_get item "Product" PNone = Ok product ->
  py_get item "Quantity" (PInt 0) = Ok quantity ->
  key_of product = Ok k -> price_map !! k = Some price ->
  (forall d, item = PDict d -> assoc d "Quantity" = None -> quantity = PInt 0) /\
  (small_prices price_map -> forallb plain_sale sales = true ->
   exists results grand_total out',
     compute_sales str sales price_map out = (Ok (results, grand_total), out')) /\
  (forall results grand_total out',
     compute_sales str sales price_map out = (Ok (results, grand_total), out') ->
     exists r added,
       nth_error results (length pre) = Some r /\ sale_id r = sid /\
       length results = length sales /\ out' = out ++ added /\
       (match as_number quantity with
        | Some q => le_zero q = true
        | None => True
        end ->
        counted_total price_map (before ++ after) 0%float = Ok (total r) /\
        In (invalid_quantity_warning str product sid quantity) added) /\
       (forall q, as_number quantity = Some q -> gt_zero q = true ->
          exists t0 amount f,
            counted_total price_map before 0%float = Ok t0 /\
            py_mul price q = Ok amount /\ to_float amount = Ok f /\
            counted_total price_map after (t0 + f)%float = Ok (total r))).
Proof.
  intros -> Hsid Hitems Hp Hq Hk Hprice. split; [|split].
  - intros d -> Hnone. cbn [py_get] in Hq. rewrite Hnone in Hq. congruence.
  - apply compute_sales_returns.
  - intros results grand_total out' H.
    apply compute_sales_at in H
      as (sid' & cust & iv & its & t & a1 & a2 & a3
          & Hsid' & _ & Hiv & Hits & Hloop & Hnth & -> & Hlen).
    rewrite Hsid in Hsid'. injection Hsid' as <-.
    rewrite Hitems in Hiv. injection Hiv as <-.
    cbn [py_iter] in Hits. injection Hits as <-.
    pose proof (items_loop_total _ _ _ _ _ _ _ Hloop) as Htotal.
    eexists _, (a1 ++ a2 ++ a3). split; [exact Hnth|].
    split; [reflexivity|]. split; [exact Hlen|].
    split; [rewrite <- !app_assoc; reflexivity|]. cbn [total].
    split.
    + intros Hbad.
      assert (Hc : dict_contains price_map product = Ok true).
      { unfold dict_contains. rewrite Hk, Hprice. reflexivity. }
      assert (Hamount : item_amount price_map item = None).
      { unfold item_amount. rewrite Hp, Hq, Hk, Hprice.
        destruct (as_number quantity) as [q|]; [rewrite Hbad|]; reflexivity. }
      rewrite (counted_total_without _ _ _ _ _ Hamount) in Htotal.
      split; [exact Htotal|].
      destruct (skipped_item_line price_map sid item
                  (invalid_quantity_warning str product sid quantity) before after
                  0%float (out ++ a1) t ((out ++ a1) ++ a2)) as (a & b & Hout).
      { intros t0 o. apply sale_item_invalid_quantity; assumption. }
      { exact Hloop. }
      apply app_inv_head in Hout. subst a2.
      apply in_or_app. right. apply in_or_app. left.
      apply in_or_app. right. left. reflexivity.
    + intros q Hn Hgt. apply gt_zero_not_le_zero in Hgt.
      rewrite counted_total_app in Htotal.
      destruct (counted_total price_map before 0%float) as [t0|] eqn:Hbefore;
        [|discriminate Htotal].
      cbn [counted_total] in Htotal.
      rewrite (item_amount_counted _ _ _ _ _ _ _ Hp Hq Hk Hprice Hn Hgt) in Htotal.
      unfold accumulate, py_iadd in Htotal.
      destruct (py_mul price q) as [amount|] eqn:Hmul; [|discriminate Htotal].
      destruct (to_float amount) as [f|] eqn:Hf; [|discriminate Htotal].
      exists t0, amount, f. repeat split; first [reflexivity | assumption].
Qed.

End Extras.

(** ** The further properties on the example data *)

(** X2 on the shop: two entries passed over, two warnings. *)
Lemma shop_catalogue_warnings :
  build_price_map show shop_catalogue []
    = (Ok shop_prices,
       [ "WARNING: Invalid price for 'Widget': -5. Skipping.";
         "WARNING: Skipping invalid catalogue entry: {'title': 'Ghost'}" ]) /\
  exists warnings,
    [ "WARNING: Invalid price for 'Widget': -5. Skipping.";
      "WARNING: Skipping invalid catalogue entry: {'title': 'Ghost'}" ] = [] ++ warnings /\
    length warnings = length (invalid_entries shop_catalogue) /\
    forallb is_warning warnings = true.
Proof.
  assert (H : build_price_map show shop_catalogue []
              = (Ok shop_prices,
                 [ "WARNING: Invalid price for 'Widget': -5. Skipping.";
                   "WARNING: Skipping invalid catalogue entry: {'title': 'Ghost'}" ]))
    by (vm_compute; reflexivity).
  split; [exact H|].
  exact (build_price_map_warns_once_per_invalid_entry show _ _ _ _ H).
Defined.

(** X3 on the Apple catalogue followed by a Pear: the Apple keeps its
    price. *)
Lemma pear_leaves_the_apple :
  build_price_map show apple_catalogue [] = (Ok shop_prices, []) /\
  build_price_map show (apple_catalogue ++ pear_entries) [] = (Ok fruit_prices, []) /\
  fruit_prices !! KStr "Apple" = shop_prices !! KStr "Apple".
Proof.
  assert (H1 : build_price_map show apple_catalogue [] = (Ok shop_prices, []))
    by (vm_compute; reflexivity).
  assert (H2 : build_price_map show (apple_catalogue ++ pear_entries) []
               = (Ok fruit_prices, [])) by (vm_compute; reflexivity).
  split; [exact H1 | split; [exact H2|]].
  apply (further_entries_leave_other_titles show apple_catalogue pear_entries
           (KStr "Apple") [] shop_prices [] [] fruit_prices [] H1 H2).
  intros item title n [<-|[]] Hv Hk.
  vm_compute in Hv. injection Hv as <- _. discriminate Hk.
Defined.

(** X4 on the shop: three Apples are added, nothing is printed. *)
Lemma three_apples_are_added :
  sale_item show shop_prices (PStr "S1") (line_item (PStr "Apple") (PInt 3))
            0%float []
  = (Ok 7.5%float, []) /\
  ((([] : list string) = [] /\
    exists product k price quantity q,
      py_get (line_item (PStr "Apple") (PInt 3)) "Product" PNone = Ok product /\
      key_of product = Ok k /\ shop_prices !! k = Some price /\
      py_get (line_item (PStr "Apple") (PInt 3)) "Quantity" (PInt 0) = Ok quantity /\
      as_number quantity = Some q /\ le_zero q = false /\
      accumulate 0%float price q = Ok 7.5%float) \/
   (7.5%float = 0%float /\
    exists line, ([] : list string) = [] ++ [line] /\
                 (is_error line = true \/ is_warning line = true))).
Proof.
  assert (H : sale_item show shop_prices (PStr "S1")
                (line_item (PStr "Apple") (PInt 3)) 0%float []
              = (Ok 7.5%float, [])) by (vm_compute; reflexivity).
  split; [exact H|].
  exact (item_is_added_or_reported show _ _ _ _ _ _ _ H).
Defined.

(** X6 on Bob's sale followed by the sales of the shop. *)
Lemma bob_then_the_shop :
  compute_sales show bob_sales shop_prices [] = (Ok (bob_results, 7.5%float), []) /\
  compute_sales show shop_sales shop_prices []
    = (Ok (shop_results, 7.5%float), shop_output) /\
  compute_sales show (bob_sales ++ shop_sales) shop_prices []
    = (Ok (bob_results ++ shop_results, add_totals 7.5%float shop_results),
       shop_output).
Proof.
  assert (H1 : compute_sales show bob_sales shop_prices []
               = (Ok (bob_results, 7.5%float), [])) by (vm_compute; reflexivity).
  assert (H2 : compute_sales show shop_sales shop_prices []
               = (Ok (shop_results, 7.5%float), shop_output))
    by (vm_compute; reflexivity).
  split; [exact H1 | split; [exact H2|]].
  exact (compute_sales_of_concatenation show _ _ _ _ _ _ _ _ _ _ H1 H2).
Defined.

(** X7 on the Apple scenario. *)
Lemma apple_totals_are_not_below_zero :
  pipeline show apple_catalogue bob_sales [] = (Ok (bob_results, 7.5%float), []) /\
  forallb (fun r => not_below_zero (total r)) bob_results = true /\
  not_below_zero 7.5%float = true.
Proof.
  assert (H : pipeline show apple_catalogue bob_sales []
              = (Ok (bob_results, 7.5%float), [])) by (vm_compute; reflexivity).
  split; [exact H|].
  exact (totals_are_never_below_zero show _ _ _ _ _ _ H).
Defined.

(** X8 on a catalogue of a negative price and a missing price. *)
Lemma widget_catalogue_gives_zero :
  (forall item, In item widget_catalogue -> valid_entry item = None) /\
  pipeline show widget_catalogue bob_sales []
    = (Ok ([ {| sale_id := PStr "S1"; customer := PStr "Bob"; total := 0 |} ],
           0%float),
       [ "WARNING: Invalid price for 'Widget': -5. Skipping.";
         "WARNING: Skipping invalid catalogue entry: {'title': 'Ghost'}";
         "ERROR: Product 'Apple' not found in catalogue (Sale: S1). Skipping." ]) /\
  Forall (fun r => total r = 0%float)
         [ {| sale_id := PStr "S1"; customer := PStr "Bob"; total := 0 |} ] /\
  0%float = 0%float.
Proof.
  assert (H0 : forall item, In item widget_catalogue -> valid_entry item = None).
  { intros item [<-|[<-|[]]]; reflexivity. }
  assert (H : pipeline show widget_catalogue bob_sales []
    = (Ok ([ {| sale_id := PStr "S1"; customer := PStr "Bob"; total := 0 |} ],
           0%float),
       [ "WARNING: Invalid price for 'Widget': -5. Skipping.";
         "WARNING: Skipping invalid catalogue entry: {'title': 'Ghost'}";
         "ERROR: Product 'Apple' not found in catalogue (Sale: S1). Skipping." ]))
    by (vm_compute; reflexivity).
  split; [exact H0 | split; [exact H|]].
  exact (no_valid_entry_no_total show _ _ _ _ _ _ H0 H).
Defined.

(** X9 on the results of the shop: 14 lines, 13 newlines. *)
Lemma shop_report_lines :
  (forall r, In r shop_results ->
     count_newlines (show (sale_id r)) = 0%nat /\
     count_newlines (show (customer r)) = 0%nat) /\
  count_newlines (format_output show shop_results 7.5%float 0.25%float)
  = (5 + 4 * length shop_results)%nat.
Proof.
  assert (H : forall r, In r shop_results ->
                count_newlines (show (sale_id r)) = 0%nat /\
                count_newlines (show (customer r)) = 0%nat).
  { intros r [<-|[<-|[]]]; split; reflexivity. }
  split; [exact H|].
  exact (report_has_four_lines_per_result show shop_results 7.5%float 0.25%float H).
Defined.

(** X11 with no argument but the script. *)
Lemma no_argument_exits_with_one :
  fst (main show apple_files 0%float 0%float (fun _ => true) (fun _ => true) ["computeSales.py"]) = SystemExit 1 /\
  1 = 1 /\
  saved (snd (main show apple_files 0%float 0%float (fun _ => true) (fun _ => true) ["computeSales.py"])) = None /\
  exists line,
    stdout (snd (main show apple_files 0%float 0%float (fun _ => true) (fun _ => true) ["computeSales.py"]))
    = [line] /\
    (line = usage_line \/ String.prefix "ERROR reading " line = true).
Proof.
  assert (H : fst (main show apple_files 0%float 0%float (fun _ => true) (fun _ => true) ["computeSales.py"])
              = SystemExit 1) by reflexivity.
  split; [exact H|].
  exact (exit_status_is_one show apple_files 0%float 0%float (fun _ => true) (fun _ => true) _ 1 H).
Defined.

(** X13 on the Apple scenario, run in a quarter of a second. *)
Lemma apple_run_returns :
  (3 <= length apple_argv)%nat /\
  apple_files (nth 1 apple_argv "") = Loaded (PList apple_catalogue) /\
  apple_files (nth 2 apple_argv "") = Loaded (PList bob_sales) /\
  forallb plain_entry apple_catalogue = true /\
  forallb plain_sale bob_sales = true /\
  exists results grand_total diagnostics,
    pipeline show apple_catalogue bob_sales []
      = (Ok (results, grand_total), diagnostics) /\
    main show apple_files 1%float 1.25%float (fun _ => true) (fun _ => true) apple_argv
    = (Returns,
       {| stdout := diagnostics
                    ++ [format_output show results grand_total (1.25 - 1)%float;
                        saved_line];
          opened := [nth 1 apple_argv ""; nth 2 apple_argv ""];
          saved := Some (format_output show results grand_total (1.25 - 1)%float) |}).
Proof.
  assert (H0 : (3 <= length apple_argv)%nat) by (simpl; lia).
  assert (H1 : apple_files (nth 1 apple_argv "") = Loaded (PList apple_catalogue))
    by reflexivity.
  assert (H2 : apple_files (nth 2 apple_argv "") = Loaded (PList bob_sales))
    by reflexivity.
  assert (H3 : forallb plain_entry apple_catalogue = true) by reflexivity.
  assert (H4 : forallb plain_sale bob_sales = true) by reflexivity.
  repeat (split; [assumption|]).
  exact (main_returns_on_plain_files show apple_files 1%float 1.25%float
           (fun _ => true) (fun _ => true) apple_argv
           apple_catalogue bob_sales H0 H1 H2 H3 H4
           (fun _ _ _ _ => conj (forallb_true_everywhere _) (conj eq_refl eq_refl))).
Defined.

(** X14 on a catalogue file that holds the number 5. *)
Lemma number_as_catalogue :
  (3 <= length apple_argv)%nat /\
  scalar_files (nth 1 apple_argv "") = Loaded (PInt 5) /\
  scalar_files (nth 2 apple_argv "") = Loaded (PList bob_sales) /\
  py_iter (PInt 5) = Raise TypeError /\
  main show scalar_files 0%float 0%float (fun _ => true) (fun _ => true) apple_argv
  = (Uncaught TypeError,
     {| stdout := []; opened := [nth 1 apple_argv ""; nth 2 apple_argv ""];
        saved := None |}).
Proof.
  assert (H0 : (3 <= length apple_argv)%nat) by (simpl; lia).
  assert (H1 : scalar_files (nth 1 apple_argv "") = Loaded (PInt 5)) by reflexivity.
  assert (H2 : scalar_files (nth 2 apple_argv "") = Loaded (PList bob_sales))
    by reflexivity.
  assert (H3 : py_iter (PInt 5) = Raise TypeError) by reflexivity.
  repeat (split; [assumption|]).
  exact (scalar_catalogue_is_a_TypeError show scalar_files 0%float 0%float
           (fun _ => true) (fun _ => true)
           apple_argv (PInt 5) (PList bob_sales) H0 H1 H2 H3).
Defined.

(** ** Items of a sale on the example data *)

(** C4 as stated fails: a product that is a list is not a key of the
    price map, it cannot even be looked up, and [compute_sales] does not
    skip the item: the membership test raises [TypeError] and there is no
    result at all. *)
Lemma list_product_is_not_skipped :
  py_get (line_item (PList [PStr "Apple"]) (PInt 1)) "Product" PNone
    = Ok (PList [PStr "Apple"]) /\
  key_of (PList [PStr "Apple"]) = Raise TypeError /\
  dict_contains shop_prices (PList [PStr "Apple"]) = Raise TypeError /\
  compute_sales show list_product_sales shop_prices [] = (Raise TypeError, []).
Proof. repeat split; vm_compute; reflexivity. Defined.

(** C4 (amended) on the shop: in sale S1 the Widget, which is not in the
    price map, is reported and left out, and the three Apples after it
    make the total 7.5. *)
Lemma widget_is_reported_and_left_out :
  compute_sales show shop_sales shop_prices []
    = (Ok (shop_results, 7.5%float), shop_output) /\
  shop_prices !! KStr "Widget" = None /\
  exists r a b,
    nth_error shop_results 0 = Some r /\ sale_id r = PStr "S1" /\
    counted_total shop_prices [line_item (PStr "Apple") (PInt 3)] 0%float
      = Ok (total r) /\
    shop_output
      = [] ++ a ++ unknown_product_error show (PStr "Widget") (PStr "S1") :: b /\
    length shop_results = length shop_sales.
Proof.
  assert (H : compute_sales show shop_sales shop_prices []
              = (Ok (shop_results, 7.5%float), shop_output))
    by (vm_compute; reflexivity).
  assert (Hnone : shop_prices !! KStr "Widget" = None) by (vm_compute; reflexivity).
  split; [exact H | split; [exact Hnone|]].
  exact (proj1 (proj2 (unknown_product_is_reported_and_left_out show
                  shop_sales [] (nth 0 shop_sales PNone) (tl shop_sales) (PStr "S1")
                  [] (line_item (PStr "Widget") (PInt 2))
                  [line_item (PStr "Apple") (PInt 3)]
                  (PStr "Widget") (KStr "Widget") shop_prices []
                  eq_refl eq_refl eq_refl eq_refl eq_refl Hnone))
           shop_results 7.5%float shop_output H).
Defined.

(** C5 as stated fails: the map [build_price_map] returns has the product
    at the integer price [10^400], the quantity 1 is a number [> 0] and
    the product of the two is that integer, but [compute_sales] adds
    nothing: it raises [OverflowError] and there is no result at all. *)
Lemma huge_price_is_not_added :
  build_price_map show huge_catalogue [] = (Ok gold_prices, []) /\
  gold_prices !! KStr "Gold" = Some (NInt (10 ^ 400)) /\
  gt_zero (NInt 1) = true /\
  py_mul (NInt (10 ^ 400)) (NInt 1) = Ok (NInt (10 ^ 400)) /\
  compute_sales show gold_sales gold_prices [] = (Raise OverflowError, []).
Proof. repeat split; vm_compute; reflexivity. Defined.

(** C5 (amended) on the shop: in sale S1 the three Apples, after the
    Widget that is left out, add 2.5 * 3 to the total 0.0; in sale S2 the
    Apple of quantity 0 is left out with a warning. *)
Lemma apples_by_quantity :
  compute_sales show shop_sales shop_prices []
    = (Ok (shop_results, 7.5%float), shop_output) /\
  shop_prices !! KStr "Apple" = Some (NFloat 2.5) /\
  (exists r t0 amount f,
     nth_error shop_results 0 = Some r /\ sale_id r = PStr "S1" /\
     counted_total shop_prices [line_item (PStr "Widget") (PInt 2)] 0%float
       = Ok t0 /\
     py_mul (NFloat 2.5) (NInt 3) = Ok amount /\ to_float amount = Ok f /\
     counted_total shop_prices [] (t0 + f)%float = Ok (total r)) /\
  (exists r added,
     nth_error shop_results 1 = Some r /\ sale_id r = PStr "S2" /\
     shop_output = [] ++ added /\
     counted_total shop_prices
       [line_item (PStr "Apple") (PStr "many"); PDict [("Quantity", PInt 1)]]
       0%float = Ok (total r) /\
     In (invalid_quantity_warning show (PStr "Apple") (PStr "S2") (PInt 0)) added).
Proof.
  assert (H : compute_sales show shop_sales shop_prices []
              = (Ok (shop_results, 7.5%float), shop_output))
    by (vm_compute; reflexivity).
  assert (Hprice : shop_prices !! KStr "Apple" = Some (NFloat 2.5))
    by (vm_compute; reflexivity).
  split; [exact H | split; [exact Hprice|]]. split.
  - destruct (proj2 (proj2 (quantity_decides_what_is_added show
                  shop_sales [] (nth 0 shop_sales PNone) (tl shop_sales) (PStr "S1")
                  [line_item (PStr "Widget") (PInt 2)]
                  (line_item (PStr "Apple") (PInt 3)) []
                  (PStr "Apple") (PInt 3) (KStr "Apple") (NFloat 2.5) shop_prices []
                  eq_refl eq_refl eq_refl eq_refl eq_refl eq_refl Hprice))
                shop_results 7.5%float shop_output H)
      as (r & added & Hr & Hsid & _ & _ & _ & Hadd).
    destruct (Hadd (NInt 3) eq_refl eq_refl) as (t0 & amount & f & H0 & Hm & Hf & Ht).
    exists r, t0, amount, f. repeat split; assumption.
  - destruct (proj2 (proj2 (quantity_decides_what_is_added show
                  shop_sales [nth 0 shop_sales PNone] (nth 1 shop_sales PNone) []
                  (PStr "S2") []
                  (line_item (PStr "Apple") (PInt 0))
                  [line_item (PStr "Apple") (PStr "many"); PDict [("Quantity", PInt 1)]]
                  (PStr "Apple") (PInt 0) (KStr "Apple") (NFloat 2.5) shop_prices []
                  eq_refl eq_refl eq_refl eq_refl eq_refl eq_refl Hprice))
                shop_results 7.5%float shop_output H)
      as (r & added & Hr & Hsid & _ & Hout & Hbad & _).
    destruct (Hbad eq_refl) as [Ht Hin].
    exists r, added. repeat split; assumption.
Defined.
